(** * A shallow embedding of infra-cli's ngrok supervisor and scripts

    Sources: [src/infra/utils/ngrok_util.py], [src/infra/scripts/create_env.py],
    [src/src/infra/scripts/create_env.py], [src/src/infra/scripts/create_backend.py].

    The Python code is modelled in a state-and-exception monad [M]: the state
    holds everything the code observes or changes outside its own variables
    (what it prints and runs, the lines still to be read from stdin, the
    successive answers of the ngrok status API, the contents of the
    install directory), and a Python exception is a [Raise] result. *)

From Stdlib Require Import String Ascii ZArith Lia.
From stdpp Require Import base gmap list strings.

Open Scope string_scope.

(** ** Python exceptions (the classes the modelled code can raise) *)

Inductive exn :=
| RuntimeError (msg : string)
| ValueError (msg : string)
| BareException (msg : string)          (* [raise Exception(...)] *)
| ConnectionError (msg : string)        (* requests: network failure *)
| HTTPError (code : Z)                  (* requests: raise_for_status *)
| CalledProcessError (code : Z)         (* subprocess.run(check=True) *)
| OSError (msg : string)                (* process could not be started *)
| FileNotFoundError (path : string)
| TimeoutExpired                        (* Popen.communicate(timeout=..) *)
| BadZipFile
| URLError (url : string)
| AttributeError (msg : string)
| KeyError (msg : string)
| TypeError (msg : string)
| IndexError
| EOFError                              (* input() at end of stdin *)
| SystemExit (code : Z).                (* sys.exit(code) *)

(** [except Exception] catches everything but [SystemExit]. *)
Definition is_Exception (e : exn) : bool :=
  match e with SystemExit _ => false | _ => true end.

(** [str(e)] for the exceptions whose text the code prints. *)
Definition exn_str (e : exn) : string :=
  match e with
  | RuntimeError m | ValueError m | BareException m | ConnectionError m
  | OSError m | AttributeError m | KeyError m | TypeError m => m
  | URLError u => "<urlopen error> " ++ u
  | FileNotFoundError p => "No such file or directory: " ++ p
  | _ => "error"
  end.

(** ** JSON values and HTTP responses *)

Inductive json :=
| JNull
| JBool (b : bool)
| JNum (z : Z)
| JStr (s : string)
| JList (l : list json)
| JObj (kvs : list (string * json)).

(** One answer of an HTTP server to a request: a network failure, or a
    final status code with a body ([None] when it is not valid JSON). *)
Inductive response :=
| RespError (msg : string)
| RespStatus (code : Z) (body : option json).

(** ** Files of the install directory *)

Inductive payload := PBinary | PData.

Inductive archive :=
| Zip (entries : list (string * payload))
| Tgz (entries : list (string * payload)).

Inductive file :=
| FArchive (a : archive)
| FPayload (p : payload) (exec : bool).

(** ** Observable events, in program order *)

Inductive event :=
| EvPrint (s : string)
| EvRun (args : list string)            (* subprocess.run *)
| EvPopen (args : list string)          (* subprocess.Popen *)
| EvGet (url : string)                  (* requests.get *)
| EvPost (url : string)                 (* requests.post *)
| EvSleep (secs : nat)                  (* time.sleep *)
| EvPoll                                (* Popen.poll *)
| EvCommunicate                         (* Popen.communicate *)
| EvTerminate                           (* Popen.terminate *)
| EvRetrieve (url : string)             (* urllib.request.urlretrieve *)
| EvInput (prompt : string)             (* input *)
| EvTraceback (e : exn).                (* interpreter reports an uncaught exception *)

(** ** The monad *)

Record st := mkSt {
  s_log : list event;          (* what has happened, oldest first *)
  s_inputs : list string;      (* lines still to be read from stdin *)
  s_api : list response;       (* next answers of the ngrok status API *)
  s_dir : gmap string file     (* contents of NGROK_BIN_DIR *)
}.

Inductive result (A : Type) :=
| Ok (a : A)
| Raise (e : exn).
Arguments Ok {A} a.
Arguments Raise {A} e.

Definition M (A : Type) := st -> result A * st.

#[global] Instance M_ret : MRet M := fun A a s => (Ok a, s).
#[global] Instance M_bind : MBind M := fun A B k m s =>
  match m s with
  | (Ok a, s') => k a s'
  | (Raise e, s') => (Raise e, s')
  end.

Definition raise {A} (e : exn) : M A := fun s => (Raise e, s).

(** [try: m  except C as e: h e], where [catches] says which exceptions
    the class [C] covers. *)
Definition try_catch {A} (catches : exn -> bool) (m : M A) (h : exn -> M A) : M A :=
  fun s => match m s with
           | (Raise e, s') => if catches e then h e s' else (Raise e, s')
           | r => r
           end.

(** [try: m  except Exception as e: h e] *)
Definition try_except {A} (m : M A) (h : exn -> M A) : M A := try_catch is_Exception m h.

Definition is_RuntimeError (e : exn) : bool :=
  match e with RuntimeError _ => true | _ => false end.

Definition emit (ev : event) : M unit :=
  fun s => (Ok tt, mkSt (s_log s ++ [ev]) (s_inputs s) (s_api s) (s_dir s)).

Definition print (msg : string) : M unit := emit (EvPrint msg).
Definition sleep (n : nat) : M unit := emit (EvSleep n).

(** [input(prompt)]: the next stdin line, [EOFError] when there is none. *)
Definition input (prompt : string) : M string :=
  fun s => match s_inputs s with
           | [] => (Raise EOFError,
                    mkSt (s_log s ++ [EvInput prompt]) [] (s_api s) (s_dir s))
           | l :: rest => (Ok l,
                    mkSt (s_log s ++ [EvInput prompt]) rest (s_api s) (s_dir s))
           end.

(** ** Small string helpers (Python's str methods, over ASCII) *)

Fixpoint digits_of (fuel n : nat) (acc : string) : string :=
  match fuel with
  | O => acc
  | S f =>
      let d := String (ascii_of_nat (48 + n mod 10)%nat) acc in
      if (n <? 10)%nat then d else digits_of f (n / 10)%nat d
  end.

(** [str(n)] for a natural number. *)
Definition str_nat (n : nat) : string := digits_of (S n) n "".

Definition lower_ascii (c : ascii) : ascii :=
  let n := nat_of_ascii c in
  if ((65 <=? n) && (n <=? 90))%nat then ascii_of_nat (n + 32)%nat else c.

(** [s.lower()] *)
Fixpoint str_lower (s : string) : string :=
  match s with
  | EmptyString => EmptyString
  | String c r => String (lower_ascii c) (str_lower r)
  end.

(** [s.replace(old, "")], removing every non-overlapping occurrence
    from left to right. *)
Fixpoint remove_all_fuel (fuel : nat) (old s : string) : string :=
  match fuel with
  | O => s
  | S f =>
      match s with
      | EmptyString => EmptyString
      | String c r =>
          if String.prefix old s
          then remove_all_fuel f old (substring (String.length old)
                                       (String.length s) s)
          else String c (remove_all_fuel f old r)
      end
  end.

Definition str_replace_empty (s old : string) : string :=
  if String.eqb old "" then s else remove_all_fuel (S (String.length s)) old s.

Definition in_list (x : string) (l : list string) : bool :=
  existsb (String.eqb x) l.

(** * Module ngrok_util *)

Definition NGROK_API_URL := "http://127.0.0.1:4040/api/tunnels".
Definition NGROK_DEFAULT_PORT := 8000%nat.

(** [requests.get(url)]: the next answer of the status API; once the
    scripted answers are used up the API is unreachable. *)
Definition requests_get (url : string) : M (Z * option json) :=
  fun s =>
    let s1 := mkSt (s_log s ++ [EvGet url]) (s_inputs s) (s_api s) (s_dir s) in
    match s_api s with
    | [] => (Raise (ConnectionError "Connection refused"), s1)
    | RespError m :: rest =>
        (Raise (ConnectionError m), mkSt (s_log s1) (s_inputs s) rest (s_dir s))
    | RespStatus c b :: rest =>
        (Ok (c, b), mkSt (s_log s1) (s_inputs s) rest (s_dir s))
    end.

(** [res.raise_for_status()]: requests raises for 4xx and 5xx codes only. *)
Definition raise_for_status (r : Z * option json) : M unit :=
  let c := fst r in
  if (400 <=? c)%Z && (c <? 600)%Z then raise (HTTPError c) else mret tt.

(** [res.json()] *)
Definition res_json (r : Z * option json) : M json :=
  match snd r with
  | Some j => mret j
  | None => raise (ValueError "Expecting value")
  end.

(** [is_ngrok_running] (ngrok_util.py lines 30-37). *)
Definition is_ngrok_running : M bool :=
  try_except
    (res ← requests_get NGROK_API_URL ;
     raise_for_status res ;;
     mret true)
    (fun _ => mret false).

(** ** The machine the code runs on

    What the code reads from the operating system and from the outside
    world, fixed for one run of the program. *)

(** A process started with [subprocess.Popen]: [p_exit_at = Some k] when
    it has exited by the [k]-th observation of it (observation [i] is the
    [process.poll()] of the [i]-th waiting round; observation [30] is the
    final [communicate(timeout=1)]), [None] when it keeps running. *)
Record proc := mkProc {
  p_exit_at : option nat;
  p_returncode : Z;
  p_stdout : string;
  p_stderr : string
}.

Record world := mkWorld {
  w_system : string;                   (* platform.system() *)
  w_machine : string;                  (* platform.machine() *)
  w_project_root : string;             (* PROJECT_ROOT *)
  w_which : option string;             (* shutil.which("ngrok") *)
  w_run : list string -> option Z;     (* exit status of a command, None: cannot start *)
  w_fetch : string -> option archive;  (* what is served at a URL, None: network failure *)
  w_popen : option proc;               (* the process Popen starts, None: cannot start *)
  w_getenv : string -> option string   (* os.getenv *)
}.

Definition is_windows (w : world) : bool := String.eqb (w_system w) "Windows".

(** [os.path.join] *)
Definition path_join (w : world) (a b : string) : string :=
  a ++ (if is_windows w then "\" else "/") ++ b.

Definition NGROK_BIN_DIR (w : world) : string :=
  path_join w (path_join w (w_project_root w) "bin") "ngrok_bin".

(** [subprocess.run(args, check=True)] *)
Definition run_check (w : world) (args : list string) : M unit :=
  emit (EvRun args) ;;
  match w_run w args with
  | None => raise (FileNotFoundError (default "" (head args)))
  | Some 0%Z => mret tt
  | Some c => raise (CalledProcessError c)
  end.

(** [subprocess.run(args, check=False)] *)
Definition run_nocheck (w : world) (args : list string) : M unit :=
  emit (EvRun args) ;;
  match w_run w args with
  | None => raise (FileNotFoundError (default "" (head args)))
  | Some _ => mret tt
  end.

(** ** Platform resolver: [get_download_url] (lines 39-74) *)

Definition mem (x : string) (l : list string) : bool := in_list x l.

Definition get_download_url (w : world) : M string :=
  let system := w_system w in
  let arch := str_lower (w_machine w) in
  print ("Detected platform: " ++ system ++ " (" ++ arch ++ ")") ;;
  if String.eqb system "Windows" then
    if mem arch ["amd64"; "x86_64"] then
      mret "https://bin.equinox.io/c/bNyj1mQVY4c/ngrok-v3-stable-windows-amd64.zip"
    else if mem arch ["arm64"; "aarch64"] then
      mret "https://bin.equinox.io/c/bNyj1mQVY4c/ngrok-v3-stable-windows-arm64.zip"
    else if mem arch ["x86"; "i386"; "i686"] then
      mret "https://bin.equinox.io/c/bNyj1mQVY4c/ngrok-v3-stable-windows-386.zip"
    else raise (BareException ("Unsupported Windows architecture: " ++ arch))
  else if String.eqb system "Darwin" then
    if String.eqb arch "arm64" then
      mret "https://bin.equinox.io/c/bNyj1mQVY4c/ngrok-v3-stable-darwin-arm64.zip"
    else if mem arch ["x86_64"; "amd64"] then
      mret "https://bin.equinox.io/c/bNyj1mQVY4c/ngrok-v3-stable-darwin-amd64.zip"
    else raise (BareException ("Unsupported macOS architecture: " ++ arch))
  else if String.eqb system "Linux" then
    if mem arch ["amd64"; "x86_64"] then
      mret "https://bin.equinox.io/c/bNyj1mQVY4c/ngrok-v3-stable-linux-amd64.tgz"
    else if mem arch ["x86"; "i386"; "i686"] then
      mret "https://bin.equinox.io/c/bNyj1mQVY4c/ngrok-v3-stable-linux-386.tgz"
    else if String.eqb arch "aarch64" then
      mret "https://bin.ngrok.com/ngrok-v3-stable-linux-arm64.zip"
    else raise (BareException ("Unsupported Linux architecture: " ++ arch))
  else raise (BareException ("Unsupported operating system: " ++ system
                             ++ " (" ++ arch ++ ")")).

(** ** The install directory *)

Definition set_dir (d : gmap string file) : M unit :=
  fun s => (Ok tt, mkSt (s_log s) (s_inputs s) (s_api s) d).

Definition get_dir : M (gmap string file) := fun s => (Ok (s_dir s), s).

(** Name of the binary inside NGROK_BIN_DIR. *)
Definition local_name (w : world) : string :=
  if is_windows w then "ngrok.exe" else "ngrok".

(** [get_local_ngrok_path] (lines 93-98) *)
Definition get_local_ngrok_path (w : world) : string :=
  path_join w (NGROK_BIN_DIR w) (local_name w).

(** [urllib.request.urlretrieve(url, NGROK_BIN_DIR/name)] *)
Definition urlretrieve (w : world) (url name : string) : M unit :=
  emit (EvRetrieve url) ;;
  match w_fetch w url with
  | None => raise (URLError url)
  | Some a => d ← get_dir ; set_dir (<[name := FArchive a]> d)
  end.

(** [zipfile.ZipFile(NGROK_BIN_DIR/name, 'r')]: the entries of a zip archive. *)
Definition zip_open (w : world) (name : string) : M (list (string * payload)) :=
  d ← get_dir ;
  match d !! name with
  | Some (FArchive (Zip es)) => mret es
  | Some _ => raise BadZipFile
  | None => raise (FileNotFoundError (path_join w (NGROK_BIN_DIR w) name))
  end.

(** [extractall]: every entry is written, replacing a file of that name;
    zipfile does not restore permission bits. *)
Definition extract_entries (es : list (string * payload)) (d : gmap string file)
  : gmap string file :=
  foldl (fun acc '(n, p) => <[n := FPayload p false]> acc) d es.

Definition extractall (es : list (string * payload)) : M unit :=
  d ← get_dir ; set_dir (extract_entries es d).

(** [os.remove(NGROK_BIN_DIR/name)] *)
Definition os_remove (w : world) (name : string) : M unit :=
  d ← get_dir ;
  match d !! name with
  | Some _ => set_dir (delete name d)
  | None => raise (FileNotFoundError (path_join w (NGROK_BIN_DIR w) name))
  end.

(** [os.chmod(NGROK_BIN_DIR/name, 0o755)] *)
Definition chmod_exec (w : world) (name : string) : M unit :=
  d ← get_dir ;
  match d !! name with
  | Some (FPayload p _) => set_dir (<[name := FPayload p true]> d)
  | Some (FArchive _) => mret tt
  | None => raise (FileNotFoundError (path_join w (NGROK_BIN_DIR w) name))
  end.

(** [os.path.exists(NGROK_BIN_DIR/name)] *)
Definition path_exists (name : string) : M bool :=
  d ← get_dir ; mret (bool_decide (is_Some (d !! name))).

(** ** Downloader: [download_ngrok] (lines 77-91) *)

Definition download_ngrok (w : world) : M string :=
  print "⏬ Downloading ngrok automatically..." ;;
  (* os.makedirs(NGROK_BIN_DIR, exist_ok=True): [s_dir] is that directory *)
  url ← get_download_url w ;
  urlretrieve w url "ngrok.zip" ;;
  es ← zip_open w "ngrok.zip" ;
  extractall es ;;
  os_remove w "ngrok.zip" ;;
  let ngrok_exec := get_local_ngrok_path w in
  (if negb (is_windows w) then chmod_exec w (local_name w) else mret tt) ;;
  print ("✅ Ngrok downloaded and ready at: " ++ ngrok_exec) ;;
  mret ngrok_exec.

(** ** Executable locator: [resolve_ngrok_exec] (lines 100-116) *)

Definition local_or_download (w : world) : M string :=
  let local_ngrok := get_local_ngrok_path w in
  '(found : bool) ← path_exists (local_name w) ;
  if found then mret local_ngrok else download_ngrok w.

Definition resolve_ngrok_exec (w : world) : M string :=
  match w_which w with
  | Some ngrok_exec =>
      if String.eqb ngrok_exec "" then local_or_download w else
      ('(r : bool) ← try_except (run_check w [ngrok_exec; "version"] ;; mret true)
             (fun _ => print "⚠️ Global ngrok is present but not responding correctly." ;;
                       mret false) ;
       if r then mret ngrok_exec else local_or_download w)
  | None => local_or_download w
  end.

(** ** Process supervisor: [start_ngrok] (lines 118-180) *)

Definition str_Z (z : Z) : string :=
  if (z <? 0)%Z then "-" ++ str_nat (Z.to_nat (- z)) else str_nat (Z.to_nat z).

(** Python truthiness of the optional [authtoken] argument. *)
Definition truthy (o : option string) : bool :=
  match o with Some t => negb (String.eqb t "") | None => false end.

(** Has the process exited by its [i]-th observation? *)
Definition exited_by (p : proc) (i : nat) : bool :=
  match p_exit_at p with Some k => (k <=? i)%nat | None => false end.

Definition timeout := 30%nat.

(** [subprocess.Popen(args, stdout=PIPE, stderr=PIPE, text=True)] *)
Definition popen (w : world) (args : list string) : M proc :=
  emit (EvPopen args) ;;
  match w_popen w with
  | Some p => mret p
  | None => raise (FileNotFoundError (default "" (head args)))
  end.

(** What follows the loop (lines 176-180): [communicate(timeout=1)] raises
    [TimeoutExpired] when the process is still running when it returns. *)
Definition after_wait (p : proc) : M proc :=
  emit EvCommunicate ;;
  if exited_by p timeout then
    print ("STDOUT: " ++ p_stdout p) ;;
    print ("STDERR: " ++ p_stderr p) ;;
    emit EvTerminate ;;
    raise (RuntimeError "⏰ Timeout while waiting for ngrok to start.")
  else raise TimeoutExpired.

(** The loop [for i in range(timeout)] (lines 161-174): [fuel] rounds are
    left and [i] is the current round. *)
Fixpoint wait_for_api (p : proc) (fuel i : nat) : M proc :=
  match fuel with
  | O => after_wait p
  | S f =>
      '(up : bool) ← is_ngrok_running ;
      if up then
        print ("✅ Ngrok started successfully after " ++ str_nat (S i) ++ " seconds.") ;;
        mret p
      else
        emit EvPoll ;;
        if exited_by p i then
          emit EvCommunicate ;;
          print ("Ngrok exited prematurely with code: " ++ str_Z (p_returncode p)) ;;
          print ("STDOUT: " ++ p_stdout p) ;;
          print ("STDERR: " ++ p_stderr p) ;;
          raise (RuntimeError "Ngrok exited prematurely")
        else
          sleep 1 ;;
          print ("Waiting for ngrok to start... " ++ str_nat (S i) ++ "/"
                 ++ str_nat timeout ++ " seconds") ;;
          wait_for_api p f (S i)
  end.

(** Lines 126-141: kill every running ngrok. *)
Definition kill_previous (w : world) : M unit :=
  try_except
    ((if is_windows w then run_nocheck w ["taskkill"; "/F"; "/IM"; "ngrok.exe"]
      else run_nocheck w ["pkill"; "ngrok"]) ;;
     print "Previous ngrok processes terminated." ;;
     sleep 2)
    (fun e => print ("Warning while trying to terminate existing ngrok processes: "
                     ++ exn_str e)).

(** Lines 143-149: configure the authtoken. *)
Definition apply_authtoken (w : world) (ngrok_exec : string) (authtoken : option string)
  : M unit :=
  match authtoken with
  | Some t =>
      if truthy authtoken then
        try_except (run_check w [ngrok_exec; "authtoken"; t])
          (fun e => print ("Error applying authtoken: " ++ exn_str e) ;;
                    print "Continuing without authtoken...")
      else mret tt
  | None => mret tt
  end.

(** Lines 151-180: launch and wait. *)
Definition launch_and_wait (w : world) (ngrok_exec : string) (port : Z) : M proc :=
  print ("🚀 Launching ngrok on port " ++ str_Z port ++ "...") ;;
  process ← popen w [ngrok_exec; "http"; str_Z port] ;
  wait_for_api process timeout 0.

Definition start_ngrok (w : world) (port : Z) (authtoken : option string) : M proc :=
  ngrok_exec ← resolve_ngrok_exec w ;
  kill_previous w ;;
  apply_authtoken w ngrok_exec authtoken ;;
  launch_and_wait w ngrok_exec port.

(** ** Endpoint reader: [get_ngrok_endpoint] (lines 182-207) *)

Definition is_space (c : ascii) : bool :=
  match nat_of_ascii c with 32 | 9 | 10 | 11 | 12 | 13 => true | _ => false end.

Fixpoint lstrip (s : string) : string :=
  match s with
  | String c r => if is_space c then lstrip r else s
  | EmptyString => EmptyString
  end.

Definition rev_str (s : string) : string := string_of_list_ascii (rev (list_ascii_of_string s)).

(** [s.strip()] *)
Definition strip (s : string) : string := rev_str (lstrip (rev_str (lstrip s))).

Definition is_digit_char (c : ascii) : bool :=
  ((48 <=? nat_of_ascii c) && (nat_of_ascii c <=? 57))%nat.

Fixpoint digits_value (s : string) (acc : Z) : option Z :=
  match s with
  | EmptyString => Some acc
  | String c r =>
      if is_digit_char c
      then digits_value r (acc * 10 + Z.of_nat (nat_of_ascii c - 48))%Z
      else None
  end.

(** [int(s)] on a decimal string: surrounding blanks and one sign allowed. *)
Definition parse_int (s : string) : option Z :=
  match strip s with
  | EmptyString => None
  | String c r as t =>
      if Ascii.eqb c "-" then
        match r with EmptyString => None | _ => option_map Z.opp (digits_value r 0) end
      else if Ascii.eqb c "+" then
        match r with EmptyString => None | _ => digits_value r 0 end
      else digits_value t 0
  end.

(** [int(os.getenv("NGROK_PORT", NGROK_DEFAULT_PORT))] *)
Definition ngrok_port (w : world) : M Z :=
  match w_getenv w "NGROK_PORT" with
  | None => mret (Z.of_nat NGROK_DEFAULT_PORT)
  | Some v =>
      match parse_int v with
      | Some z => mret z
      | None => raise (ValueError ("invalid literal for int() with base 10: " ++ v))
      end
  end.

Definition json_truthy (j : json) : bool :=
  match j with
  | JNull => false
  | JBool b => b
  | JNum z => negb (Z.eqb z 0)
  | JStr s => negb (String.eqb s "")
  | JList l => negb (Nat.eqb (length l) 0)
  | JObj kvs => negb (Nat.eqb (length kvs) 0)
  end.

Definition json_lookup (k : string) (kvs : list (string * json)) : option json :=
  option_map snd (List.find (fun kv => String.eqb (fst kv) k) kvs).

(** [data.get(key, default)] *)
Definition json_get (data : json) (k : string) (dflt : json) : M json :=
  match data with
  | JObj kvs => mret (default dflt (json_lookup k kvs))
  | _ => raise (AttributeError "object has no attribute 'get'")
  end.

(** [xs[0]] *)
Definition json_index0 (j : json) : M json :=
  match j with
  | JList (x :: _) => mret x
  | JList [] => raise IndexError
  | JStr (String c _) => mret (JStr (String c EmptyString))
  | JStr EmptyString => raise IndexError
  | JObj _ => raise (KeyError "0")      (* JSON object keys are strings *)
  | _ => raise (TypeError "object is not subscriptable")
  end.

(** [x["key"]] *)
Definition json_key (j : json) (k : string) : M json :=
  match j with
  | JObj kvs =>
      match json_lookup k kvs with
      | Some v => mret v
      | None => raise (KeyError k)
      end
  | JList _ | JStr _ => raise (TypeError "indices must be integers")
  | _ => raise (TypeError "object is not subscriptable")
  end.

(** [url.replace("https://", "").replace("http://", "")] *)
Definition strip_scheme (j : json) : M string :=
  match j with
  | JStr u => mret (str_replace_empty (str_replace_empty u "https://") "http://")
  | _ => raise (AttributeError "object has no attribute 'replace'")
  end.

(** Lines 195-207, the [try] that reads the status API. *)
Definition read_endpoint (w : world) : M string :=
  try_except
    (res ← requests_get NGROK_API_URL ;
     raise_for_status res ;;
     data ← res_json res ;
     tunnels ← json_get data "tunnels" (JList []) ;
     if negb (json_truthy tunnels) then
       port ← ngrok_port w ;
       print ("No active tunnels found. Make sure a service is listening on port "
              ++ str_Z port) ;;
       raise (ValueError "No active ngrok tunnels.")
     else
       t0 ← json_index0 tunnels ;
       url ← json_key t0 "public_url" ;
       strip_scheme url)
    (fun e => raise (RuntimeError ("Error fetching ngrok endpoint: " ++ exn_str e))).

Definition get_ngrok_endpoint (w : world) : M string :=
  '(running : bool) ← is_ngrok_running ;
  (if negb running then
     print "🔄 Ngrok is not running. It will be launched automatically..." ;;
     let authtoken := w_getenv w "NGROK_AUTHTOKEN" in
     port ← ngrok_port w ;
     print ("Using port " ++ str_Z port ++ " for ngrok") ;;
     start_ngrok w port authtoken ;;
     sleep 5
   else mret tt) ;;
  read_endpoint w.

(** * Scripts [create_env.py] and [create_backend.py] *)

Definition nl : string := String (ascii_of_nat 10) EmptyString.

(** [raw.split(",")] *)
Fixpoint split_comma (s : string) : list string :=
  match s with
  | EmptyString => [""]
  | String c r =>
      if Ascii.eqb c "," then "" :: split_comma r
      else match split_comma r with
           | x :: xs => String c x :: xs
           | [] => [String c EmptyString]
           end
  end.

(** [[p.strip() for p in raw.split(",") if p.strip()]] *)
Definition split_parts (raw : string) : list string :=
  List.filter (fun p => negb (String.eqb p "")) (map strip (split_comma raw)).

(** [for idx, opt in enumerate(options, 1): print(f"  {idx}. {opt}")] *)
Fixpoint print_options (idx : nat) (options : list string) : M unit :=
  match options with
  | [] => mret tt
  | opt :: rest => print ("  " ++ str_nat idx ++ ". " ++ opt) ;; print_options (S idx) rest
  end.

Section Choose.

(** [str.isdigit] and [int] on the strings it accepts; Python's versions
    accept Unicode digits as well, so they are left abstract here: [None]
    is a [ValueError] raised by [int]. *)
Variable str_isdigit : string -> bool.
Variable str_int : string -> option Z.

(** The body of [for p in parts] (create_env.py lines 73-102): the
    returned flag is [all_valid]. *)
Fixpoint select_parts (options parts selected seen : list string)
  : M (bool * list string) :=
  match parts with
  | [] => mret (true, selected)
  | p :: rest =>
      if in_list p seen then
        print ("❌ Duplicate entry detected: " ++ p) ;; mret (false, selected)
      else
        let seen' := p :: seen in
        if str_isdigit p then
          match str_int p with
          | None => raise (ValueError ("invalid literal for int() with base 10: " ++ p))
          | Some i =>
              if ((1 <=? i) && (i <=? Z.of_nat (length options)))%Z then
                let selected_name := nth (Z.to_nat i - 1) options "" in
                if in_list selected_name selected then
                  print ("❌ Duplicate service: " ++ selected_name) ;; mret (false, selected)
                else select_parts options rest (selected ++ [selected_name]) seen'
              else print ("❌ Invalid number: " ++ p) ;; mret (false, selected)
          end
        else if in_list p options then
          if in_list p selected then
            print ("❌ Duplicate service: " ++ p) ;; mret (false, selected)
          else select_parts options rest (selected ++ [p]) seen'
        else print ("❌ Invalid name: " ++ p) ;; mret (false, selected)
  end.

(** The [while True] loop (lines 65-107); each round reads one line, so
    [fuel] larger than the number of pending lines ends in [EOFError]. *)
Fixpoint choose_loop (options : list string) (fuel : nat) : M (list string) :=
  match fuel with
  | O => raise EOFError
  | S f =>
      raw ← input "👉 Enter numbers or names (comma-separated): " ;
      let parts := split_parts (strip raw) in
      '((all_valid, selected) : bool * list string) ← select_parts options parts [] [] ;
      if all_valid && negb (Nat.eqb (length selected) 0) then mret selected
      else
        print ("🔁 Please enter only valid, non-repeated names or numbers from the list." ++ nl) ;;
        choose_loop options f
  end.

(** [choose_multiple_from_list] (create_env.py lines 56-107). *)
Definition choose_multiple_from_list (options : list string) (title : string)
  : M (list string) :=
  fun s =>
    (match options with
     | [] => print "⚠️ No services defined." ;; raise (SystemExit 1)
     | _ =>
         print (nl ++ "🧩 " ++ title ++ ":") ;;
         print_options 1 options ;;
         choose_loop options (S (length (s_inputs s)))
     end) s.

(** [choose_from_list] (create_env.py lines 36-53). *)
Fixpoint choose_one_loop (options : list string) (fuel : nat) : M string :=
  match fuel with
  | O => raise EOFError
  | S f =>
      raw ← input "👉 Choose (number or name): " ;
      let choice := strip raw in
      let retry := print "❌ Invalid option. Try again." ;; choose_one_loop options f in
      if str_isdigit choice then
        match str_int choice with
        | None => raise (ValueError ("invalid literal for int() with base 10: " ++ choice))
        | Some idx =>
            if ((1 <=? idx) && (idx <=? Z.of_nat (length options)))%Z
            then mret (nth (Z.to_nat idx - 1) options "")
            else retry
        end
      else if in_list choice options then mret choice
      else retry
  end.

Definition choose_from_list (options : list string) (title : string) : M string :=
  fun s =>
    (match options with
     | [] => print "⚠️ No options available." ;; raise (SystemExit 1)
     | _ =>
         print (nl ++ "📚 " ++ title ++ ":") ;;
         print_options 1 options ;;
         choose_one_loop options (S (length (s_inputs s)))
     end) s.

End Choose.

(** create_backend.py lines 30-81 is the same function under another name. *)
Definition choose_multiple_services_from_list := choose_multiple_from_list.

(** Python's [str.isdigit] and [int] restricted to ASCII. *)
Definition py_isdigit (s : string) : bool :=
  negb (String.eqb s "") && forallb is_digit_char (list_ascii_of_string s).

(** [int] on the strings [py_isdigit] accepts. *)
Definition py_int (s : string) : option Z := parse_int s.

(** ** The provisioning backend, as the scripts see it *)

Record backend := mkBackend {
  (* the JSON list of strings the backend answers at a URL, or the text of
     the exception raised while fetching or decoding it *)
  b_list : string -> string + list string;
  (* whether [requests.post] to a URL succeeds (2xx or 3xx) *)
  b_post_ok : string -> bool
}.

(** [get_available_services] and [get_repo_branches]: a failure is
    printed and yields the empty list. *)
Definition fetch_list (b : backend) (what url : string) : M (list string) :=
  emit (EvGet url) ;;
  match b_list b url with
  | inr l => mret l
  | inl err => print ("❌ Error fetching " ++ what ++ ": " ++ err) ;; mret []
  end.

Definition get_available_services (b : backend) (base : string) : M (list string) :=
  fetch_list b "services" (base ++ "/services").

Definition get_repo_branches (b : backend) (base : string) : M (list string) :=
  fetch_list b "branches" (base ++ "/repos/branches").

(** [s.rsplit("/", 1)[0]] *)
Fixpoint rsplit_slash_head (s : string) : option string :=
  match s with
  | EmptyString => None
  | String c r =>
      match rsplit_slash_head r with
      | Some h => Some (String c h)
      | None => if Ascii.eqb c "/" then Some EmptyString else None
      end
  end.

(** [terraform_endpoint.rsplit("/", 1)[0]], where [None] stands for the
    [None] that [os.getenv] returns for an unset variable. *)
Definition terraform_base_of (te : option string) : M string :=
  match te with
  | None => raise (AttributeError "'NoneType' object has no attribute 'rsplit'")
  | Some s => mret (default s (rsplit_slash_head s))
  end.

Definition str_truthy (o : option string) : bool := truthy o.

(** [json.dumps(payload, indent=2)]; only its presence in the output is
    modelled, not its layout. *)
Definition render_payload (fields : list (string * string)) : string :=
  foldr (fun '(k, v) acc => k ++ "=" ++ v ++ ";" ++ acc) "" fields.

(** [send_payload] *)
Definition send_payload (b : backend) (payload : string) (terraform_endpoint : string)
  : M unit :=
  emit (EvPost terraform_endpoint) ;;
  if b_post_ok b terraform_endpoint then
    print "📦 Response from Terraform service:"
  else
    print ("❌ Error sending payload: " ++ terraform_endpoint) ;;
    raise (SystemExit 1).

(** The confirmation loop: [y] goes on, [n] leaves with [sys.exit(0)]. *)
Fixpoint confirm_loop (prompt : string) (fuel : nat) : M unit :=
  match fuel with
  | O => raise EOFError
  | S f =>
      raw ← input prompt ;
      let confirm := str_lower (strip raw) in
      if String.eqb confirm "y" then mret tt
      else if String.eqb confirm "n" then
        print "🚫 Operation cancelled by the user." ;; raise (SystemExit 0)
      else print "❌ Please respond with 'y' or 'n'." ;; confirm_loop prompt f
  end.

Definition confirm (prompt : string) : M unit :=
  fun s => confirm_loop prompt (S (length (s_inputs s))) s.

(** How the interpreter ends a run of [m]: its exit status, with a
    traceback for an uncaught exception. *)
Definition main (m : M unit) : M Z :=
  fun s => match m s with
           | (Ok _, s') => (Ok 0%Z, s')
           | (Raise (SystemExit c), s') => (Ok c, s')
           | (Raise e, s') => (Ok 1%Z, mkSt (s_log s' ++ [EvTraceback e])
                                            (s_inputs s') (s_api s') (s_dir s'))
           end.

Module CreateEnv.
(** [run] of src/infra/scripts/create_env.py (lines 147-205); [w_getenv]
    is the environment after [load_dotenv]. *)
Definition run (w : world) (b : backend) : M unit :=
  let developer := w_getenv w "DEVELOPER" in
  let terraform_endpoint := w_getenv w "TERRAFORM_ENDPOINT" in
  terraform_base ← terraform_base_of terraform_endpoint ;
  (if negb (str_truthy terraform_endpoint) then
     print "❌ TERRAFORM_ENDPOINT no definido" ;; raise (SystemExit 1)
   else mret tt) ;;
  (if negb (str_truthy developer) then
     print "❌ DEVELOPER no definido" ;; raise (SystemExit 1)
   else mret tt) ;;
  services ← get_available_services b terraform_base ;
  local_services ← choose_multiple_from_list py_isdigit py_int services
                     "Select local services" ;
  branches ← get_repo_branches b terraform_base ;
  selected_branch ← choose_from_list py_isdigit py_int branches
                      "Select a front branch to deploy" ;
  ngrok_endpoint ← try_catch is_RuntimeError (get_ngrok_endpoint w)
                     (fun e => print (exn_str e) ;; raise (SystemExit 1)) ;
  print (nl ++ "📋 Verify your setup:") ;;
  confirm (nl ++ "✅ Do you want continue? (y/n): ") ;;
  let dev := default "" developer in
  let te := default "" terraform_endpoint in
  let payload := render_payload [("developer", dev);
                                 ("local_services", String.concat "," local_services);
                                 ("ngrok_endpoint", ngrok_endpoint);
                                 ("branch", selected_branch)] in
  print (nl ++ "📤 Payload a enviar:") ;;
  print payload ;;
  send_payload b payload te.
End CreateEnv.

Module CreateEnvCli.
(** [run] of src/src/infra/scripts/create_env.py (lines 149-234), with the
    [--services] and [--branch] arguments. The final wait for Ctrl+C ends
    when the user interrupts it, after which [run] returns. *)
Definition run (w : world) (b : backend) (cli_services cli_branch : option string)
  : M unit :=
  let developer := w_getenv w "DEVELOPER" in
  let terraform_endpoint := w_getenv w "TERRAFORM_ENDPOINT" in
  terraform_base ← terraform_base_of terraform_endpoint ;
  (if negb (str_truthy terraform_endpoint) then
     print "❌ TERRAFORM_ENDPOINT is not defined in env file" ;; raise (SystemExit 1)
   else mret tt) ;;
  (if negb (str_truthy developer) then
     print "❌ DEVELOPER is not defined in env file" ;; raise (SystemExit 1)
   else mret tt) ;;
  print "🌐 Requesting availables services and availables branches" ;;
  available_services ← get_available_services b terraform_base ;
  available_branches ← get_repo_branches b terraform_base ;
  '((local_services, selected_branch) : list string * string) ←
    (if str_truthy cli_services || str_truthy cli_branch then
       match cli_services, cli_branch with
       | Some cs, Some cb =>
           if str_truthy cli_services && str_truthy cli_branch then
             let selected_branch := strip cb in
             if negb (in_list selected_branch available_branches) then
               print ("❌ Invalid branch: '" ++ selected_branch ++ "' not in available list.") ;;
               raise (SystemExit 1)
             else
               let local_services := split_parts cs in
               let invalid := List.filter (fun x => negb (in_list x available_services))
                                local_services in
               match invalid with
               | [] => mret (local_services, selected_branch)
               | _ => print ("❌ Invalid services: " ++ String.concat ", " invalid) ;;
                      raise (SystemExit 1)
               end
           else
             print "❌ If you provide one of --services or --branch, you must provide both." ;;
             raise (SystemExit 1)
       | _, _ =>
           print "❌ If you provide one of --services or --branch, you must provide both." ;;
           raise (SystemExit 1)
       end
     else
       local_services ← choose_multiple_from_list py_isdigit py_int available_services
                          "Select local services" ;
       selected_branch ← choose_from_list py_isdigit py_int available_branches
                           "Select a frontend branch to deploy" ;
       mret (local_services, selected_branch)) ;
  ngrok_endpoint ← try_catch is_RuntimeError
                     (print "🚀 Trying launch nrok" ;; get_ngrok_endpoint w)
                     (fun e => print (exn_str e) ;; raise (SystemExit 1)) ;
  print (nl ++ "📋 Verify your setup:") ;;
  confirm (nl ++ "✅ Do you want to continue? (y/n): ") ;;
  let dev := default "" developer in
  let te := default "" terraform_endpoint in
  let payload := render_payload [("developer", dev);
                                 ("local_services", String.concat "," local_services);
                                 ("ngrok_endpoint", ngrok_endpoint);
                                 ("branch", selected_branch)] in
  print (nl ++ "📤 Payload a enviar:") ;;
  print payload ;;
  send_payload b payload te ;;
  print (nl ++ "✅ Environment created and running.") ;;
  print "🔒 Press Ctrl+C to exit and shut down the environment." ;;
  print (nl ++ "🛑 Environment stopped.").
End CreateEnvCli.

(** * Derived notions and test scenarios *)

(** Unfold the monad's plumbing. *)
Ltac unfold_M :=
  unfold mbind, M_bind, mret, M_ret, raise, print, sleep, emit, try_except,
    try_catch in *.

(** [s] with events appended to its log. *)
Definition log_add (s : st) (evs : list event) : st :=
  mkSt (s_log s ++ evs) (s_inputs s) (s_api s) (s_dir s).

(** ** is_ngrok_running *)

(** What [is_ngrok_running] answers for one answer of the status API:
    [raise_for_status] raises exactly for codes 400 to 599. *)
Definition status_ok (r : response) : bool :=
  match r with
  | RespError _ => false
  | RespStatus c _ => negb ((400 <=? c)%Z && (c <? 600)%Z)
  end.

Definition next_status_ok (s : st) : bool :=
  match s_api s with [] => false | r :: _ => status_ok r end.

Definition after_get (s : st) : st :=
  mkSt (s_log s ++ [EvGet NGROK_API_URL]) (s_inputs s) (tl (s_api s)) (s_dir s).

(** The platforms [get_download_url] has a URL for, [arch] lower-cased. *)
Definition supported (system arch : string) : bool :=
  if String.eqb system "Windows" then
    mem arch ["amd64"; "x86_64"] || mem arch ["arm64"; "aarch64"]
    || mem arch ["x86"; "i386"; "i686"]
  else if String.eqb system "Darwin" then
    String.eqb arch "arm64" || mem arch ["x86_64"; "amd64"]
  else if String.eqb system "Linux" then
    mem arch ["amd64"; "x86_64"] || mem arch ["x86"; "i386"; "i686"]
    || String.eqb arch "aarch64"
  else false.

(** The name the error message gives the operating system. *)
Definition os_label (system : string) : string :=
  if String.eqb system "Windows" then "Windows"
  else if String.eqb system "Darwin" then "macOS"
  else system.

Definition unsupported_message (system arch : string) : string :=
  if String.eqb system "Windows" || String.eqb system "Darwin"
     || String.eqb system "Linux"
  then "Unsupported " ++ os_label system ++ " architecture: " ++ arch
  else "Unsupported operating system: " ++ system ++ " (" ++ arch ++ ")".

Definition platform_world (system machine : string) : world :=
  mkWorld system machine "/project" None (fun _ => Some 0%Z) (fun _ => None) None
          (fun _ => None).

Definition s_empty : st := mkSt [] [] [] ∅.

(** Is the ngrok on the PATH there and does [ngrok version] succeed? *)
Definition system_ngrok_ok (w : world) : bool :=
  match w_which w with
  | Some p => negb (String.eqb p "")
              && match w_run w [p; "version"] with Some 0%Z => true | _ => false end
  | None => false
  end.

(** What [resolve_ngrok_exec] does before falling back to the local copy. *)
Definition probe_events (w : world) : list event :=
  match w_which w with
  | Some p =>
      if String.eqb p "" then []
      else [EvRun [p; "version"];
            EvPrint "⚠️ Global ngrok is present but not responding correctly."]
  | None => []
  end.

(** [NGROK_PORT] is unset or an integer. *)
Definition port_env_ok (w : world) : Prop :=
  match w_getenv w "NGROK_PORT" with
  | None => True
  | Some v => is_Some (parse_int v)
  end.

Definition api_state (s : st) (api : list response) : st :=
  mkSt (s_log s) (s_inputs s) api (s_dir s).

Definition one_mapping : json :=
  JObj [("tunnels", JList [JObj [("public_url", JStr "https://abcd.example.com")]])].

Definition good_selection (options sel : list string) : Prop :=
  NoDup sel /\ (forall x, In x sel -> In x options).

(** The status API gives no successful answer to the next [n] requests. *)
Definition api_down (n : nat) (api : list response) : bool :=
  forallb (fun r => negb (status_ok r)) (firstn n api).

(** What one unsuccessful waiting round [i] does when the process runs on. *)
Definition round_events (i : nat) : list event :=
  [EvGet NGROK_API_URL; EvPoll; EvSleep 1;
   EvPrint ("Waiting for ngrok to start... " ++ str_nat (S i) ++ "/"
            ++ str_nat timeout ++ " seconds")].

Definition rounds_events (i n : nat) : list event :=
  List.concat (map round_events (seq i n)).

(** What the round that finds the process dead does. *)
Definition crash_events (p : proc) : list event :=
  [EvGet NGROK_API_URL; EvPoll; EvCommunicate;
   EvPrint ("Ngrok exited prematurely with code: " ++ str_Z (p_returncode p));
   EvPrint ("STDOUT: " ++ p_stdout p);
   EvPrint ("STDERR: " ++ p_stderr p)].

(** [s] after [n] requests to the status API and the events [evs]. *)
Definition advance (s : st) (n : nat) (evs : list event) : st :=
  mkSt (s_log s ++ evs) (s_inputs s) (drop n (s_api s)) (s_dir s).

(** Lines 124-149 of [start_ngrok], before the launch. *)
Definition start_setup (w : world) (authtoken : option string) : M string :=
  ngrok_exec ← resolve_ngrok_exec w ;
  kill_previous w ;;
  apply_authtoken w ngrok_exec authtoken ;;
  mret ngrok_exec.

Definition launch_events (exec : string) (port : Z) : list event :=
  [EvPrint ("🚀 Launching ngrok on port " ++ str_Z port ++ "...");
   EvPopen [exec; "http"; str_Z port]].

Definition count_gets (l : list event) : nat :=
  length (List.filter (fun ev => match ev with EvGet _ => true | _ => false end) l).

Definition count_terminates (l : list event) : nat :=
  length (List.filter (fun ev => match ev with EvTerminate => true | _ => false end) l).

(** The [authtoken] invocation succeeds, everything else unchanged. *)
Definition with_auth_ok (w : world) (exec t : string) : world :=
  mkWorld (w_system w) (w_machine w) (w_project_root w) (w_which w)
    (fun args => match args with
                 | [a; b; c] =>
                     if String.eqb a exec && String.eqb b "authtoken" && String.eqb c t
                     then Some 0%Z else w_run w args
                 | _ => w_run w args
                 end)
    (w_fetch w) (w_popen w) (w_getenv w).

(** The exception [subprocess.run(args, check=True)] raises when it fails. *)
Definition run_error (w : world) (args : list string) : exn :=
  match w_run w args with
  | None => FileNotFoundError (default "" (head args))
  | Some c => CalledProcessError c
  end.

Definition auth_failure_events (w : world) (exec t : string) : list event :=
  [EvRun [exec; "authtoken"; t];
   EvPrint ("Error applying authtoken: " ++ exn_str (run_error w [exec; "authtoken"; t]));
   EvPrint "Continuing without authtoken..."].

Definition linux_amd64_url : string :=
  "https://bin.equinox.io/c/bNyj1mQVY4c/ngrok-v3-stable-linux-amd64.tgz".

Definition ngrok_path : string := "/usr/local/bin/ngrok".

(** A Linux machine with a working ngrok on the PATH whose [ngrok http]
    process is [p]; no environment variable is set. *)
Definition demo_world (p : proc) : world :=
  mkWorld "Linux" "x86_64" "/home/dev/infra-cli" (Some ngrok_path)
    (fun _ => Some 0%Z) (fun _ => None) (Some p) (fun _ => None).

Definition hanging_proc : proc := mkProc None 0 "" "".

Definition crashing_proc (k : nat) : proc := mkProc (Some k) 1 "boot log" "ERR_NGROK_4018".

Definition world_which (which : option string) (run : list string -> option Z) : world :=
  mkWorld "Linux" "x86_64" "/home/dev/infra-cli" which run
    (fun _ => None) None (fun _ => None).

Definition dir_with_local : gmap string file := {[ "ngrok" := FPayload PBinary true ]}.

(** A Linux/x86_64 machine with no ngrok on the PATH; the download server
    hands out the archive [a] for every URL. *)
Definition fetch_world (machine : string) (a : archive) : world :=
  mkWorld "Linux" machine "/home/dev/infra-cli" None (fun _ => None)
    (fun _ => Some a) None (fun _ => None).

Definition ngrok_tgz : archive := Tgz [("ngrok", PBinary)].

Definition ngrok_zip : archive := Zip [("ngrok", PBinary)].

(** [ngrok authtoken] exits with 1, every other command with 0. *)
Definition auth_fail_world : world :=
  mkWorld "Linux" "x86_64" "/home/dev/infra-cli" (Some ngrok_path)
    (fun args => if existsb (String.eqb "authtoken") args then Some 1%Z else Some 0%Z)
    (fun _ => None) (Some hanging_proc) (fun _ => None).

Definition auth_s1 : st := log_add s_empty [EvRun [ngrok_path; "version"]].

(** A backend that lists two services and one branch and accepts posts. *)
Definition demo_backend : backend :=
  mkBackend (fun url => if String.eqb url "https://tf.example.com/services"
                        then inr ["api"; "web"] else inr ["main"])
            (fun _ => true).

(** The environment after [load_dotenv] holds exactly [env]. *)
Definition env_world (env : list (string * string)) : world :=
  mkWorld "Linux" "x86_64" "/home/dev/infra-cli" (Some ngrok_path)
    (fun _ => Some 0%Z) (fun _ => None) (Some hanging_proc)
    (fun v => match List.find (fun kv => String.eqb (fst kv) v) env with
              | Some kv => Some (snd kv)
              | None => None
              end).

Definition rsplit_error : exn :=
  AttributeError "'NoneType' object has no attribute 'rsplit'".

Definition choice_options : list string := ["api"; "web"; "db"].

(** First line [1, api] names [api] twice and is refused; the second,
    [api, 3], is accepted. *)
Definition choice_state : st := mkSt [] ["1, api"; "api, 3"] [] ∅.

(** The payload of the last entry named [n] of an archive: the one
    [extractall] leaves in place. *)
Fixpoint last_entry (n : string) (es : list (string * payload)) : option payload :=
  match es with
  | [] => None
  | (m, p) :: rest =>
      match last_entry n rest with
      | Some q => Some q
      | None => if String.eqb m n then Some p else None
      end
  end.

(** The line [get_download_url] prints first. *)
Definition detect_event (w : world) : event :=
  EvPrint ("Detected platform: " ++ w_system w ++ " (" ++ str_lower (w_machine w) ++ ")").

(** What a successful [download_ngrok] on a non-Windows machine leaves in
    the install directory [d]: the archive's entries, the archive itself
    removed, the binary made executable. *)
Definition installed_dir (es : list (string * payload)) (p : payload)
    (d : gmap string file) : gmap string file :=
  <["ngrok" := FPayload p true]> (delete "ngrok.zip" (extract_entries es d)).

(** The command [start_ngrok] runs to kill earlier ngrok processes. *)
Definition kill_cmd (w : world) : list string :=
  if is_windows w then ["taskkill"; "/F"; "/IM"; "ngrok.exe"] else ["pkill"; "ngrok"].


(** What [get_available_services] and [get_repo_branches] return, and what
    they log, for a backend. *)
Definition fetched (b : backend) (url : string) : list string :=
  match b_list b url with inr l => l | inl _ => [] end.

Definition fetch_log (b : backend) (what url : string) : list event :=
  EvGet url :: match b_list b url with
               | inr _ => []
               | inl err => [EvPrint ("❌ Error fetching " ++ what ++ ": " ++ err)]
               end.

Definition env_base (te : string) : string := default te (rsplit_slash_head te).


(** A backend that cannot be reached. *)
Definition down_backend : backend :=
  mkBackend (fun _ => inl "Connection refused") (fun _ => false).

Definition dev_env : list (string * string) :=
  [("TERRAFORM_ENDPOINT", "https://tf.example.com/create"); ("DEVELOPER", "ana")].

Module CreateBackend.
(** [build_payload] of src/src/infra/scripts/create_backend.py (lines
    87-91), rendered as [json.dumps] would print it (layout not modelled). *)
Definition build_payload (environment : string) (services_to_deploy : list string)
  : string :=
  render_payload [("environment", environment);
                  ("services_to_deploy", String.concat "," services_to_deploy)].

(** [get_available_services] (lines 106-113). *)
Definition get_available_services (b : backend) (base : string) : M (list string) :=
  fetch_list b "services" (base ++ "/services").

(** [get_available_stable_environments] (lines 115-122). *)
Definition get_available_stable_environments (b : backend) (base : string)
  : M (list string) :=
  fetch_list b "stable environments" (base ++ "/available-stable-environments").

(** The [while True] loop of lines 159-164. *)
Fixpoint ask_ephemeral (fuel : nat) : M bool :=
  match fuel with
  | O => raise EOFError
  | S f =>
      raw ← input "Is this environment ephemeral? (y/n): " ;
      let ephemeral_input := str_lower (strip raw) in
      if in_list ephemeral_input ["y"; "n"] then mret (String.eqb ephemeral_input "y")
      else print "❌ Please enter 'y' or 'n'." ;; ask_ephemeral f
  end.

(** The [while True] loop of lines 199-206. *)
Fixpoint confirm_loop (fuel : nat) : M unit :=
  match fuel with
  | O => raise EOFError
  | S f =>
      raw ← input (nl ++ "✅ Continue? (y/n): ") ;
      let confirm := str_lower (strip raw) in
      if in_list confirm ["y"; "n"] then
        if String.eqb confirm "n" then
          print "🚫 Operation cancelled by user." ;; raise (SystemExit 0)
        else mret tt
      else print "❌ Please enter 'y' or 'n'." ;; confirm_loop f
  end.

Definition with_input_fuel {A} (loop : nat -> M A) : M A :=
  fun s => loop (S (length (s_inputs s))) s.

(** [run] (lines 125-218); [w_getenv] is the environment after
    [load_dotenv]. [None] stands for an argument left at [None]; its
    [send_payload] (lines 94-104) differs from the one of [create_env] only
    in the headers, which are not modelled. *)
Definition run (w : world) (b : backend) (cli_environment cli_services : option string)
    (cli_is_ephemeral : option bool) : M unit :=
  let terraform_endpoint_base := w_getenv w "TERRAFORM_ENDPOINT_BASE" in
  let terraform_create_ephemeral_endpoint :=
    w_getenv w "TERRAFORM_CREATE_EPHIMERAL_ENDPOINT" in
  let terraform_create_no_ephemeral_endpoint :=
    w_getenv w "TERRAFORM_CREATE_NO_EPHIMERAL_ENDPOINT" in
  if negb (str_truthy terraform_endpoint_base)
     || negb (str_truthy terraform_create_ephemeral_endpoint)
     || negb (str_truthy terraform_create_no_ephemeral_endpoint) then
    print "❌ Missing required environment variables: TERRAFORM_ENDPOINT_BASE, TERRAFORM_CREATE_EPHIMERAL_ENDPOINT, or TERRAFORM_CREATE_NO_EPHIMERAL_ENDPOINT." ;;
    raise (SystemExit 1)
  else
    let base := default "" terraform_endpoint_base in
    print "🌐 Requesting available services..." ;;
    available_services ← get_available_services b base ;
    print "🌐 Requesting available stable environments..." ;;
    available_stable_environments ← get_available_stable_environments b base ;
    '((environment, is_ephemeral, services_to_deploy) : string * bool * list string) ←
      match cli_environment, cli_services, cli_is_ephemeral with
      | Some env, Some svcs, Some e => mret (env, e, split_parts svcs)
      | _, _, _ =>
          is_ephemeral ← with_input_fuel ask_ephemeral ;
          print "📝 Enter environment name:" ;;
          raw ← input "Environment: " ;
          services_to_deploy ← choose_multiple_services_from_list py_isdigit py_int
                                 available_services "Select services to deploy" ;
          mret (strip raw, is_ephemeral, services_to_deploy)
      end ;
    let invalid_services :=
      List.filter (fun x => negb (in_list x available_services)) services_to_deploy in
    match invalid_services with
    | _ :: _ =>
        print ("❌ Invalid services: " ++ String.concat ", " invalid_services) ;;
        raise (SystemExit 1)
    | [] =>
        if Nat.eqb (length services_to_deploy) 1 then
          print "✅ The provided service is a valid service"
        else print "✅ The provided services are valid services"
    end ;;
    (if negb is_ephemeral then
       if negb (in_list environment available_stable_environments) then
         print ("❌ Environment '" ++ environment
                ++ "' is not in this list of stable environments: "
                ++ String.concat ", " available_stable_environments) ;;
         raise (SystemExit 1)
       else print "✅ The provided environment is a valid stable environment"
     else mret tt) ;;
    print (nl ++ "📋 Review your configuration:") ;;
    print ("🧪  Ephemeral:           " ++ (if is_ephemeral then "Yes" else "No")) ;;
    print ("🌍  Environment:         " ++ environment) ;;
    print ("🧩  Services to deploy:  " ++ String.concat ", " services_to_deploy) ;;
    with_input_fuel confirm_loop ;;
    let payload := build_payload environment services_to_deploy in
    print (nl ++ "📤 Sending payload:") ;;
    print payload ;;
    let endpoint := if is_ephemeral then default "" terraform_create_ephemeral_endpoint
                    else default "" terraform_create_no_ephemeral_endpoint in
    send_payload b payload endpoint ;;
    print (nl ++ "✅ Environment created and running.") ;;
    print "🔒 Press Ctrl+C to exit and shut down the environment.".
End CreateBackend.


Definition backend_env : list (string * string) :=
  [("TERRAFORM_ENDPOINT_BASE", "https://tf.example.com");
   ("TERRAFORM_CREATE_EPHIMERAL_ENDPOINT", "https://tf.example.com/ephemeral");
   ("TERRAFORM_CREATE_NO_EPHIMERAL_ENDPOINT", "https://tf.example.com/stable")].

(** A backend that lists two services and the stable environment [prod]. *)
Definition stable_backend : backend :=
  mkBackend (fun url => if String.eqb url "https://tf.example.com/services"
                        then inr ["api"; "web"] else inr ["prod"])
            (fun _ => true).

(** The output of a [download_ngrok] run that installs the binary. *)
Definition installed_log (w : world) (url : string) : list event :=
  [EvPrint "⏬ Downloading ngrok automatically..."; detect_event w; EvRetrieve url;
   EvPrint ("✅ Ngrok downloaded and ready at: " ++ get_local_ngrok_path w)].

(** The output of the round in which the status API first answers. *)
Definition ready_events (i : nat) : list event :=
  [EvGet NGROK_API_URL;
   EvPrint ("✅ Ngrok started successfully after " ++ str_nat (S i) ++ " seconds.")].

(** The status API refuses, then answers 502, then 200. *)
Definition ready_state : st :=
  mkSt [] [] [RespError "Connection refused"; RespStatus 502 None; RespStatus 200 None] ∅.


(** * Properties *)

Lemma is_ngrok_running_step (s : st) :
  is_ngrok_running s = (Ok (next_status_ok s), after_get s).
Proof.
  unfold is_ngrok_running, next_status_ok, after_get, requests_get,
    raise_for_status; unfold_M.
  destruct s as [l i api d]; simpl.
  destruct api as [|[m|c b] rest]; simpl; try reflexivity.
  destruct ((400 <=? c)%Z && (c <? 600)%Z); reflexivity.
Qed.

(** ** get_download_url *)

(** C3 (corrected): [get_download_url] returns a non-empty URL exactly for
    the pairs of its table, [supported]: Windows with amd64, x86_64, arm64,
    aarch64, x86, i386 or i686; Darwin (macOS) with arm64, x86_64 or amd64;
    Linux with amd64, x86_64, x86, i386, i686 or aarch64 (architecture
    lower-cased first). Every other pair raises an [Exception] whose
    message names the architecture and the OS family ("Windows", "macOS",
    "Linux"), or, for an unknown OS, both the OS and the architecture. *)
Theorem get_download_url_supported_table (w : world) (s : st) :
  let arch := str_lower (w_machine w) in
  let s' := log_add s [EvPrint ("Detected platform: " ++ w_system w ++ " (" ++ arch ++ ")")] in
  (supported (w_system w) arch = true ->
     exists url, get_download_url w s = (Ok url, s') /\ url <> "") /\
  (supported (w_system w) arch = false ->
     get_download_url w s
     = (Raise (BareException (unsupported_message (w_system w) arch)), s')).
Proof.
  intros arch s'.
  unfold get_download_url, supported, unsupported_message, os_label, s', log_add.
  fold arch; unfold_M; simpl.
  repeat (simpl orb in *;
          match goal with
          | |- context [if ?b then _ else _] => destruct b eqn:?
          end);
  split; intro H; try discriminate H; try reflexivity;
  try (eexists; split; [reflexivity | discriminate]).
  all: match goal with
       | H : String.eqb ?x "Linux" = true |- _ =>
           apply String.eqb_eq in H; rewrite H; reflexivity
       end.
Qed.

(** ** resolve_ngrok_exec *)

Lemma log_add_app (s : st) (l1 l2 : list event) :
  log_add (log_add s l1) l2 = log_add s (l1 ++ l2).
Proof. unfold log_add; simpl; rewrite app_assoc; reflexivity. Qed.

(** C4: [resolve_ngrok_exec] returns the system ngrok, with only its
    [ngrok version] run, when it is on the PATH and that command succeeds;
    otherwise the local copy, when NGROK_BIN_DIR holds it, without running
    it; otherwise exactly what [download_ngrok] does from the state reached. *)
Theorem resolve_ngrok_exec_fallback_chain (w : world) (s : st) :
  (forall p, w_which w = Some p -> p <> "" -> w_run w [p; "version"] = Some 0%Z ->
     resolve_ngrok_exec w s = (Ok p, log_add s [EvRun [p; "version"]])) /\
  (system_ngrok_ok w = false -> is_Some (s_dir s !! local_name w) ->
     resolve_ngrok_exec w s = (Ok (get_local_ngrok_path w), log_add s (probe_events w))) /\
  (system_ngrok_ok w = false -> s_dir s !! local_name w = None ->
     resolve_ngrok_exec w s = download_ngrok w (log_add s (probe_events w))).
Proof.
  unfold resolve_ngrok_exec, system_ngrok_ok, probe_events, local_or_download,
    path_exists, get_dir, run_check.
  unfold_M.
  destruct (w_which w) as [p|] eqn:Hw; simpl.
  - destruct (String.eqb p "") eqn:Hp; simpl.
    + split; [intros q Hq Hq'; injection Hq as <-;
              apply String.eqb_eq in Hp; contradiction|].
      split; intros _ H.
      * destruct H as [f Hf]; rewrite Hf; simpl.
        unfold log_add; simpl; rewrite app_nil_r; destruct s; reflexivity.
      * rewrite H; simpl. unfold log_add; simpl; rewrite app_nil_r; destruct s; reflexivity.
    + split.
      { intros q Hq _ Hr; injection Hq as <-; rewrite Hr; reflexivity. }
      destruct (w_run w [p; "version"]) as [[|c|c]|] eqn:Hr; simpl;
        (split; intros Hok H; [try discriminate Hok|try discriminate Hok]);
        solve [ destruct H as [f Hf]; rewrite Hf; simpl;
                unfold log_add; simpl; rewrite <- app_assoc; reflexivity
              | rewrite H; simpl; unfold log_add; simpl; rewrite <- app_assoc; reflexivity ].
  - split; [intros q Hq; discriminate Hq|].
    split; intros _ H.
    + destruct H as [f Hf]; rewrite Hf; simpl.
      unfold log_add; simpl; rewrite app_nil_r; destruct s; reflexivity.
    + rewrite H; simpl. unfold log_add; simpl; rewrite app_nil_r; destruct s; reflexivity.
Qed.

(** ** get_ngrok_endpoint *)

Lemma get_ngrok_endpoint_running (w : world) (s : st) :
  next_status_ok s = true ->
  get_ngrok_endpoint w s = read_endpoint w (after_get s).
Proof.
  intros H. unfold get_ngrok_endpoint. unfold_M.
  rewrite is_ngrok_running_step, H. reflexivity.
Qed.

(** C5 (corrected): with the tunnel already running (first answer of the
    status API successful) and NGROK_PORT unset or an integer,
    [get_ngrok_endpoint] raises [RuntimeError("Error fetching ngrok
    endpoint: No active ngrok tunnels.")] on a successful answer with zero
    mappings; an unreachable API raises the same class, [RuntimeError],
    with the connection error's text in place of "No active ngrok tunnels.";
    on the single mapping [https://abcd.example.com] it returns
    ["abcd.example.com"]. *)
Theorem get_ngrok_endpoint_no_tunnel_and_scheme (w : world) (s : st) (r0 : response) (c : Z)
    (kvs : list (string * json)) (m : string) (rest : list response) :
  status_ok r0 = true -> status_ok (RespStatus c None) = true ->
  (json_lookup "tunnels" kvs = None \/ json_lookup "tunnels" kvs = Some (JList [])) ->
  port_env_ok w ->
  fst (get_ngrok_endpoint w (api_state s (r0 :: RespStatus c (Some (JObj kvs)) :: rest)))
    = Raise (RuntimeError ("Error fetching ngrok endpoint: " ++ "No active ngrok tunnels."))
  /\ fst (get_ngrok_endpoint w (api_state s (r0 :: RespError m :: rest)))
    = Raise (RuntimeError ("Error fetching ngrok endpoint: " ++ m))
  /\ fst (get_ngrok_endpoint w (api_state s (r0 :: RespStatus c (Some one_mapping) :: rest)))
    = Ok "abcd.example.com".
Proof.
  intros H0 Hc Hk Hport.
  repeat rewrite get_ngrok_endpoint_running by (unfold next_status_ok; simpl; exact H0).
  unfold status_ok in Hc.
  unfold read_endpoint, requests_get, raise_for_status, res_json, json_get, after_get,
    api_state; unfold_M; simpl.
  destruct ((400 <=? c)%Z && (c <? 600)%Z); [discriminate Hc|]; simpl.
  split; [|split; reflexivity].
  unfold ngrok_port, port_env_ok in *.
  destruct Hk as [Hk|Hk]; rewrite Hk; simpl;
    destruct (w_getenv w "NGROK_PORT") as [v|]; simpl; try reflexivity;
    destruct Hport as [z Hz]; rewrite Hz; reflexivity.
Qed.

(** ** Monad inversion *)

Lemma bind_ok {A B} (m : M A) (k : A -> M B) (s s' : st) (b : B) :
  (m ≫= k) s = (Ok b, s') ->
  exists a s1, m s = (Ok a, s1) /\ k a s1 = (Ok b, s').
Proof.
  unfold_M. destruct (m s) as [[a|e] s1]; intros H.
  - exists a, s1; auto.
  - discriminate H.
Qed.

Lemma emit_ok (ev : event) (s : st) : emit ev s = (Ok tt, log_add s [ev]).
Proof. reflexivity. Qed.

Lemma in_list_spec (x : string) (l : list string) : in_list x l = true <-> In x l.
Proof.
  unfold in_list. rewrite existsb_exists. split.
  - intros [y [Hy Heq]]. apply String.eqb_eq in Heq. subst. exact Hy.
  - intros H. exists x. split; [exact H|apply String.eqb_refl].
Qed.

Lemma in_list_false (x : string) (l : list string) : in_list x l = false -> ~ In x l.
Proof. intros H Hin. apply in_list_spec in Hin. congruence. Qed.

(** ** choose_multiple_from_list *)

Section ChooseProps.
Variable str_isdigit : string -> bool.
Variable str_int : string -> option Z.

Lemma select_parts_good (options parts selected seen : list string) (s s' : st)
    (b : bool) (sel : list string) :
  good_selection options selected ->
  select_parts str_isdigit str_int options parts selected seen s = (Ok (b, sel), s') ->
  good_selection options sel.
Proof.
  revert selected seen s.
  induction parts as [|p rest IH]; intros selected seen s Hg H; simpl in H.
  - unfold_M. injection H as <- <-. exact Hg.
  - destruct (in_list p seen).
    + apply bind_ok in H. destruct H as [u [s1 [_ H]]].
      unfold_M. injection H as <- <-. exact Hg.
    + destruct (str_isdigit p).
      * destruct (str_int p) as [i|]; [|discriminate H].
        destruct ((1 <=? i)%Z && (i <=? Z.of_nat (length options))%Z) eqn:Hr.
        -- destruct (in_list (nth (Z.to_nat i - 1) options "") selected) eqn:Hin.
           ++ apply bind_ok in H. destruct H as [u [s1 [_ H]]].
              unfold_M. injection H as <- <-. exact Hg.
           ++ eapply IH; [|exact H].
              destruct Hg as [Hnd Hsub].
              apply andb_prop in Hr. destruct Hr as [H1 H2].
              apply Z.leb_le in H1. apply Z.leb_le in H2.
              split.
              ** apply NoDup_app. split; [exact Hnd|]. split.
                 { intros x Hx Hx'. apply list_elem_of_In in Hx, Hx'.
                   destruct Hx' as [<-|[]]. exact (in_list_false _ _ Hin Hx). }
                 apply NoDup_singleton.
              ** intros x Hx. apply in_app_or in Hx. destruct Hx as [Hx|[<-|[]]].
                 { exact (Hsub x Hx). }
                 apply nth_In. lia.
        -- apply bind_ok in H. destruct H as [u [s1 [_ H]]].
           unfold_M. injection H as <- <-. exact Hg.
      * destruct (in_list p options) eqn:Hopt.
        -- destruct (in_list p selected) eqn:Hin.
           ++ apply bind_ok in H. destruct H as [u [s1 [_ H]]].
              unfold_M. injection H as <- <-. exact Hg.
           ++ eapply IH; [|exact H].
              destruct Hg as [Hnd Hsub]. split.
              ** apply NoDup_app. split; [exact Hnd|]. split.
                 { intros x Hx Hx'. apply list_elem_of_In in Hx, Hx'.
                   destruct Hx' as [<-|[]]. exact (in_list_false _ _ Hin Hx). }
                 apply NoDup_singleton.
              ** intros x Hx. apply in_app_or in Hx. destruct Hx as [Hx|[<-|[]]].
                 { exact (Hsub x Hx). }
                 apply in_list_spec. exact Hopt.
        -- apply bind_ok in H. destruct H as [u [s1 [_ H]]].
           unfold_M. injection H as <- <-. exact Hg.
Qed.

Lemma choose_loop_good (options : list string) (fuel : nat) (s s' : st)
    (sel : list string) :
  choose_loop str_isdigit str_int options fuel s = (Ok sel, s') ->
  sel <> [] /\ good_selection options sel.
Proof.
  revert s. induction fuel as [|f IH]; intros s H; simpl in H.
  - discriminate H.
  - apply bind_ok in H. destruct H as [raw [s1 [_ H]]].
    apply bind_ok in H. destruct H as [[b sel0] [s2 [Hsel H]]].
    destruct (b && negb (Nat.eqb (length sel0) 0)) eqn:Hb.
    + unfold_M. injection H as <- <-.
      apply andb_prop in Hb. destruct Hb as [_ Hlen].
      split.
      * intros ->. discriminate Hlen.
      * eapply select_parts_good; [|exact Hsel].
        split; [constructor | intros x []].
    + apply bind_ok in H. destruct H as [u [s3 [_ H]]].
      exact (IH _ H).
Qed.

End ChooseProps.

(** ** start_ngrok *)

Lemma api_down_S (n : nat) (s : st) :
  api_down (S n) (s_api s) = true ->
  next_status_ok s = false /\ api_down n (tl (s_api s)) = true.
Proof.
  unfold api_down, next_status_ok. destruct (s_api s) as [|r rest]; simpl.
  - intros _. split; [reflexivity|]. destruct n; reflexivity.
  - intros H. apply andb_prop in H. destruct H as [H1 H2].
    split; [|exact H2]. destruct (status_ok r); [discriminate H1|reflexivity].
Qed.

Lemma wait_round_continue (p : proc) (f i : nat) (s : st) :
  next_status_ok s = false -> exited_by p i = false ->
  wait_for_api p (S f) i s = wait_for_api p f (S i) (advance s 1 (round_events i)).
Proof.
  intros Hs He. simpl. unfold_M.
  rewrite is_ngrok_running_step, Hs. simpl. rewrite He. simpl.
  unfold advance, after_get, round_events; simpl.
  repeat rewrite <- app_assoc. destruct (s_api s); reflexivity.
Qed.

Lemma wait_round_crash (p : proc) (f i : nat) (s : st) :
  next_status_ok s = false -> exited_by p i = true ->
  wait_for_api p (S f) i s
  = (Raise (RuntimeError "Ngrok exited prematurely"), advance s 1 (crash_events p)).
Proof.
  intros Hs He. simpl. unfold_M.
  rewrite is_ngrok_running_step, Hs. simpl. rewrite He. simpl.
  unfold advance, after_get, crash_events; simpl.
  repeat rewrite <- app_assoc. destruct (s_api s); reflexivity.
Qed.

Lemma advance_advance (s : st) (n m : nat) (l1 l2 : list event) :
  advance (advance s n l1) m l2 = advance s (n + m) (l1 ++ l2).
Proof.
  unfold advance; simpl. rewrite app_assoc, drop_drop. reflexivity.
Qed.

Lemma drop_1_tl {A} (l : list A) : drop 1 l = tl l.
Proof. destruct l; reflexivity. Qed.

(** The process keeps running and the API never answers: all [fuel]
    rounds run and the final [communicate(timeout=1)] raises. *)
Lemma wait_for_api_hang (p : proc) (fuel i : nat) (s : st) :
  p_exit_at p = None -> api_down fuel (s_api s) = true ->
  wait_for_api p fuel i s
  = (Raise TimeoutExpired, advance s fuel (rounds_events i fuel ++ [EvCommunicate])).
Proof.
  intros Hp. revert i s. induction fuel as [|f IH]; intros i s Hd.
  - simpl. unfold after_wait, exited_by. rewrite Hp. unfold_M.
    unfold advance; simpl. destruct s; reflexivity.
  - destruct (api_down_S _ _ Hd) as [Hs Hd'].
    rewrite wait_round_continue; [|exact Hs|unfold exited_by; rewrite Hp; reflexivity].
    rewrite IH.
    + rewrite advance_advance. unfold rounds_events. simpl.
      repeat rewrite <- app_assoc. reflexivity.
    + unfold advance; simpl. rewrite drop_1_tl. exact Hd'.
Qed.

(** The process is seen dead at round [i + k], before any successful answer. *)
Lemma wait_for_api_crash (p : proc) (k fuel i : nat) (s : st) :
  p_exit_at p = Some (i + k) -> k < fuel -> api_down (S k) (s_api s) = true ->
  wait_for_api p fuel i s
  = (Raise (RuntimeError "Ngrok exited prematurely"),
     advance s (S k) (rounds_events i k ++ crash_events p)).
Proof.
  intros Hp. revert i fuel s Hp. induction k as [|k IH]; intros i fuel s Hp Hk Hd.
  - destruct fuel as [|f]; [lia|].
    destruct (api_down_S _ _ Hd) as [Hs _].
    rewrite wait_round_crash; [reflexivity|exact Hs|].
    unfold exited_by. rewrite Hp. apply Nat.leb_le. lia.
  - destruct fuel as [|f]; [lia|].
    destruct (api_down_S _ _ Hd) as [Hs Hd'].
    rewrite wait_round_continue; [|exact Hs|].
    + rewrite (IH (S i) f).
      * rewrite advance_advance. unfold rounds_events. simpl.
        repeat rewrite <- app_assoc. reflexivity.
      * rewrite Hp. f_equal. lia.
      * lia.
      * unfold advance; simpl. rewrite drop_1_tl. exact Hd'.
    + unfold exited_by. rewrite Hp. apply Nat.leb_gt. lia.
Qed.

Lemma start_ngrok_after_setup (w : world) (port : Z) (tok : option string) (s s1 : st)
    (exec : string) :
  start_setup w tok s = (Ok exec, s1) ->
  start_ngrok w port tok s = launch_and_wait w exec port s1.
Proof.
  unfold start_ngrok, start_setup. unfold_M.
  destruct (resolve_ngrok_exec w s) as [[e|x] s0]; [|discriminate].
  destruct (kill_previous w s0) as [[u|x] s2]; [|discriminate].
  destruct (apply_authtoken w e tok s2) as [[v|x] s3]; [|discriminate].
  intros H. injection H as <- <-. reflexivity.
Qed.

Lemma launch_and_wait_popen (w : world) (exec : string) (port : Z) (p : proc) (s : st) :
  w_popen w = Some p ->
  launch_and_wait w exec port s = wait_for_api p timeout 0 (advance s 0 (launch_events exec port)).
Proof.
  intros Hp. unfold launch_and_wait, popen. unfold_M. simpl. rewrite Hp.
  unfold advance, launch_events; simpl. rewrite <- app_assoc. destruct s; reflexivity.
Qed.

Lemma apply_authtoken_fail (w : world) (exec t : string) (s : st) :
  t <> "" -> w_run w [exec; "authtoken"; t] <> Some 0%Z ->
  apply_authtoken w exec (Some t) s = (Ok tt, log_add s (auth_failure_events w exec t)).
Proof.
  intros Ht Hr. unfold apply_authtoken, truthy, run_check, auth_failure_events, run_error.
  apply String.eqb_neq in Ht. rewrite Ht. simpl. unfold_M. simpl.
  destruct (w_run w [exec; "authtoken"; t]) as [[|c|c]|]; try (exfalso; apply Hr; reflexivity);
    simpl; unfold log_add; simpl; repeat rewrite <- app_assoc; reflexivity.
Qed.

Lemma apply_authtoken_success (w : world) (exec t : string) (s : st) :
  t <> "" -> w_run w [exec; "authtoken"; t] = Some 0%Z ->
  apply_authtoken w exec (Some t) s = (Ok tt, log_add s [EvRun [exec; "authtoken"; t]]).
Proof.
  intros Ht Hr. unfold apply_authtoken, truthy, run_check.
  apply String.eqb_neq in Ht. rewrite Ht. simpl. unfold_M. simpl.
  rewrite Hr. reflexivity.
Qed.

Lemma with_auth_ok_resolve (w : world) (exec t : string) (s : st) :
  resolve_ngrok_exec (with_auth_ok w exec t) s = resolve_ngrok_exec w s.
Proof. reflexivity. Qed.

Lemma with_auth_ok_kill (w : world) (exec t : string) (s : st) :
  kill_previous (with_auth_ok w exec t) s = kill_previous w s.
Proof. reflexivity. Qed.

Lemma with_auth_ok_launch (w : world) (exec t : string) (port : Z) (s : st) :
  launch_and_wait (with_auth_ok w exec t) exec port s = launch_and_wait w exec port s.
Proof. reflexivity. Qed.

Lemma with_auth_ok_run (w : world) (exec t : string) :
  w_run (with_auth_ok w exec t) [exec; "authtoken"; t] = Some 0%Z.
Proof. simpl. rewrite !String.eqb_refl. reflexivity. Qed.

(** ** download_ngrok *)

(** On Linux/x86_64 the table hands [download_ngrok] a [.tgz] archive,
    which [zipfile] cannot open: each run stops with [BadZipFile] and leaves
    the archive behind as [ngrok.zip]. *)
Lemma download_ngrok_linux_tgz (w : world) (s : st) (es : list (string * payload)) :
  w_system w = "Linux" -> str_lower (w_machine w) = "x86_64" ->
  w_fetch w linux_amd64_url = Some (Tgz es) ->
  fst (download_ngrok w s) = Raise BadZipFile /\
  s_dir (snd (download_ngrok w s)) = <["ngrok.zip" := FArchive (Tgz es)]> (s_dir s).
Proof.
  intros Hsys Harch Hf.
  unfold download_ngrok, get_download_url, urlretrieve, zip_open, get_dir, set_dir.
  unfold_M. rewrite Hsys, Harch. simpl. unfold linux_amd64_url in Hf. rewrite Hf. simpl.
  rewrite lookup_insert_eq. split; reflexivity.
Qed.

Lemma start_ngrok_hang (w : world) (port : Z) (tok : option string) (s s1 : st)
    (exec : string) (p : proc) :
  start_setup w tok s = (Ok exec, s1) -> w_popen w = Some p -> p_exit_at p = None ->
  api_down timeout (s_api s1) = true ->
  start_ngrok w port tok s
  = (Raise TimeoutExpired,
     advance s1 timeout (launch_events exec port ++ rounds_events 0 timeout ++ [EvCommunicate])).
Proof.
  intros Hset Hp He Hd.
  rewrite (start_ngrok_after_setup _ _ _ _ _ _ Hset), (launch_and_wait_popen _ _ _ _ _ Hp).
  rewrite wait_for_api_hang; [|exact He|exact Hd].
  rewrite advance_advance. reflexivity.
Qed.

(** * The claims *)

(** C1 (code_bug): the status API never answers and the launched process
    never exits. [start_ngrok] does make 30 requests to the status API,
    one per round with a 1-second sleep after each, but then
    [process.communicate(timeout=1)] on the still-running process raises
    [subprocess.TimeoutExpired]: [process.terminate()] is never reached and
    the timeout [RuntimeError] is never raised. *)
Theorem start_ngrok_never_ready_never_exits :
  let r := start_ngrok (demo_world hanging_proc) 8000 None s_empty in
  fst r = Raise TimeoutExpired /\
  count_gets (s_log (snd r)) = 30%nat /\
  count_terminates (s_log (snd r)) = 0%nat.
Proof. vm_compute. split; [reflexivity | split; reflexivity]. Qed.

(** C2 (corrected): when the launched process is seen to have exited at
    one of the 30 polling rounds, round [e < 30], and the status API gave
    no successful answer up to that round, [start_ngrok] raises the crash
    error [RuntimeError("Ngrok exited prematurely")], not the timeout
    error, after printing the exit code and the captured stdout and stderr
    (the last three events of [crash_events]). *)
Theorem start_ngrok_crash_before_ready (w : world) (port : Z) (tok : option string)
    (s s1 : st) (exec : string) (p : proc) (e : nat) :
  start_setup w tok s = (Ok exec, s1) ->
  w_popen w = Some p ->
  p_exit_at p = Some e ->
  e < timeout ->
  api_down (S e) (s_api s1) = true ->
  start_ngrok w port tok s
  = (Raise (RuntimeError "Ngrok exited prematurely"),
     advance s1 (S e) (launch_events exec port ++ rounds_events 0 e ++ crash_events p))
  /\ RuntimeError "Ngrok exited prematurely"
     <> RuntimeError "⏰ Timeout while waiting for ngrok to start.".
Proof.
  intros Hset Hp He Hlt Hd. split; [|discriminate].
  rewrite (start_ngrok_after_setup _ _ _ _ _ _ Hset), (launch_and_wait_popen _ _ _ _ _ Hp).
  rewrite (wait_for_api_crash p e timeout 0); [|exact He|exact Hlt|exact Hd].
  rewrite advance_advance. reflexivity.
Qed.

Lemma start_ngrok_crash_before_ready_witness :
  let w := demo_world (crashing_proc 3) in
  let s1 := snd (start_setup w None s_empty) in
  start_setup w None s_empty = (Ok ngrok_path, s1) /\
  start_ngrok w 8000 None s_empty
  = (Raise (RuntimeError "Ngrok exited prematurely"),
     advance s1 4 (launch_events ngrok_path 8000 ++ rounds_events 0 3
                   ++ crash_events (crashing_proc 3)))
  /\ RuntimeError "Ngrok exited prematurely"
     <> RuntimeError "⏰ Timeout while waiting for ngrok to start.".
Proof.
  intros w s1. split; [reflexivity|].
  apply (start_ngrok_crash_before_ready w 8000 None s_empty s1 ngrok_path
           (crashing_proc 3) 3).
  - reflexivity.
  - reflexivity.
  - reflexivity.
  - unfold timeout; lia.
  - reflexivity.
Defined.

(** C2 counterexample: a process that exits on its own during the last
    second of waiting (observed exited only at the final [communicate]),
    with the status API never answering, is reported with the timeout
    error, not the crash error. *)
Lemma start_ngrok_late_exit_reports_timeout :
  p_exit_at (crashing_proc 30) = Some 30%nat /\
  fst (start_ngrok (demo_world (crashing_proc 30)) 8000 None s_empty)
  = Raise (RuntimeError "⏰ Timeout while waiting for ngrok to start.").
Proof. split; [reflexivity | vm_compute; reflexivity]. Qed.

Lemma get_download_url_supported_table_witness :
  (supported "Windows" (str_lower "AMD64") = true /\
   exists url,
     get_download_url (platform_world "Windows" "AMD64") s_empty
     = (Ok url, log_add s_empty [EvPrint "Detected platform: Windows (amd64)"])
     /\ url <> "") /\
  (supported "Darwin" (str_lower "i386") = false /\
   get_download_url (platform_world "Darwin" "i386") s_empty
   = (Raise (BareException "Unsupported macOS architecture: i386"),
      log_add s_empty [EvPrint "Detected platform: Darwin (i386)"])).
Proof.
  split; split.
  - reflexivity.
  - apply (proj1 (get_download_url_supported_table (platform_world "Windows" "AMD64") s_empty)).
    reflexivity.
  - reflexivity.
  - apply (proj2 (get_download_url_supported_table (platform_world "Darwin" "i386") s_empty)).
    reflexivity.
Defined.

(** C3 counterexample: Linux with the architecture spelled [arm64], and
    macOS on x86, are in the claimed set but raise. *)
Lemma get_download_url_linux_arm64_unsupported :
  fst (get_download_url (platform_world "Linux" "arm64") s_empty)
  = Raise (BareException "Unsupported Linux architecture: arm64") /\
  fst (get_download_url (platform_world "Darwin" "i386") s_empty)
  = Raise (BareException "Unsupported macOS architecture: i386").
Proof. split; reflexivity. Qed.

Lemma resolve_ngrok_exec_fallback_chain_witness :
  resolve_ngrok_exec (world_which (Some ngrok_path) (fun _ => Some 0%Z)) s_empty
  = (Ok ngrok_path, log_add s_empty [EvRun [ngrok_path; "version"]]) /\
  resolve_ngrok_exec (world_which (Some ngrok_path) (fun _ => Some 1%Z))
    (mkSt [] [] [] dir_with_local)
  = (Ok (get_local_ngrok_path (world_which (Some ngrok_path) (fun _ => Some 1%Z))),
     log_add (mkSt [] [] [] dir_with_local)
       (probe_events (world_which (Some ngrok_path) (fun _ => Some 1%Z)))) /\
  resolve_ngrok_exec (world_which None (fun _ => None)) s_empty
  = download_ngrok (world_which None (fun _ => None))
      (log_add s_empty (probe_events (world_which None (fun _ => None)))).
Proof.
  split; [|split].
  - apply (proj1 (resolve_ngrok_exec_fallback_chain _ s_empty));
      [reflexivity | discriminate | reflexivity].
  - apply (proj1 (proj2 (resolve_ngrok_exec_fallback_chain
                           (world_which (Some ngrok_path) (fun _ => Some 1%Z))
                           (mkSt [] [] [] dir_with_local)))).
    + reflexivity.
    + simpl. eexists. reflexivity.
  - apply (proj2 (proj2 (resolve_ngrok_exec_fallback_chain
                           (world_which None (fun _ => None)) s_empty))); reflexivity.
Defined.

Lemma get_ngrok_endpoint_no_tunnel_and_scheme_witness :
  status_ok (RespStatus 200 None) = true /\
  port_env_ok (demo_world hanging_proc) /\
  fst (get_ngrok_endpoint (demo_world hanging_proc)
         (api_state s_empty [RespStatus 200 None;
                             RespStatus 200 (Some (JObj [("tunnels", JList [])]))]))
    = Raise (RuntimeError ("Error fetching ngrok endpoint: " ++ "No active ngrok tunnels."))
  /\ fst (get_ngrok_endpoint (demo_world hanging_proc)
         (api_state s_empty [RespStatus 200 None; RespError "Connection refused"]))
    = Raise (RuntimeError ("Error fetching ngrok endpoint: " ++ "Connection refused"))
  /\ fst (get_ngrok_endpoint (demo_world hanging_proc)
         (api_state s_empty [RespStatus 200 None; RespStatus 200 (Some one_mapping)]))
    = Ok "abcd.example.com".
Proof.
  split; [reflexivity|]. split; [exact I|].
  apply (get_ngrok_endpoint_no_tunnel_and_scheme (demo_world hanging_proc) s_empty
           (RespStatus 200 None) 200 [("tunnels", JList [])] "Connection refused" []).
  - reflexivity.
  - reflexivity.
  - right. reflexivity.
  - exact I.
Defined.

(** C5 counterexample: with NGROK_PORT set to a non-integer, a response
    with zero mappings raises the [int()] error wrapped in the
    [RuntimeError], not the no-tunnel error. *)
Lemma get_ngrok_endpoint_bad_port_hides_no_tunnel :
  fst (get_ngrok_endpoint
         (mkWorld "Linux" "x86_64" "/home/dev/infra-cli" (Some ngrok_path)
            (fun _ => Some 0%Z) (fun _ => None) None
            (fun v => if String.eqb v "NGROK_PORT" then Some "abc" else None))
         (api_state s_empty [RespStatus 200 None;
                             RespStatus 200 (Some (JObj [("tunnels", JList [])]))]))
  = Raise (RuntimeError ("Error fetching ngrok endpoint: "
                         ++ "invalid literal for int() with base 10: abc")).
Proof. vm_compute. reflexivity. Qed.

(** C6 (code_bug): on Linux/x86_64 the URL [get_download_url] picks is a
    [.tgz] archive, which [download_ngrok] opens with [zipfile]. Two runs in
    a row from an empty install directory both fail with [BadZipFile]; what
    they leave is the archive under the name [ngrok.zip] and no binary. *)
Theorem download_ngrok_twice_linux_tgz :
  let w := fetch_world "x86_64" ngrok_tgz in
  let r1 := download_ngrok w s_empty in
  let r2 := download_ngrok w (snd r1) in
  fst r1 = Raise BadZipFile /\ fst r2 = Raise BadZipFile /\
  s_dir (snd r2) = {[ "ngrok.zip" := FArchive ngrok_tgz ]} /\
  s_dir (snd r2) !! "ngrok" = None.
Proof. vm_compute. repeat split; reflexivity. Qed.

(** The zip path of the same function (Linux/aarch64) does install one
    executable binary, and a second run ends in the same directory. *)
Lemma download_ngrok_twice_linux_zip :
  let w := fetch_world "aarch64" ngrok_zip in
  let r1 := download_ngrok w s_empty in
  let r2 := download_ngrok w (snd r1) in
  fst r1 = Ok "/home/dev/infra-cli/bin/ngrok_bin/ngrok" /\
  fst r2 = Ok "/home/dev/infra-cli/bin/ngrok_bin/ngrok" /\
  s_dir (snd r1) = {[ "ngrok" := FPayload PBinary true ]} /\
  s_dir (snd r2) = s_dir (snd r1).
Proof. vm_compute. repeat split; reflexivity. Qed.

(** C7: when [ngrok authtoken t] fails, [start_ngrok] prints the error and
    [Continuing without authtoken...] and goes on to [launch_and_wait]
    with the same executable and port, from the state it would have
    reached had the configuration succeeded, up to the two printed lines. *)
Theorem start_ngrok_authtoken_failure_nonfatal (w : world) (port : Z) (exec t : string)
    (s s1 s2 : st) :
  t <> "" ->
  resolve_ngrok_exec w s = (Ok exec, s1) ->
  kill_previous w s1 = (Ok tt, s2) ->
  w_run w [exec; "authtoken"; t] <> Some 0%Z ->
  start_ngrok w port (Some t) s
  = launch_and_wait w exec port (log_add s2 (auth_failure_events w exec t)) /\
  start_ngrok (with_auth_ok w exec t) port (Some t) s
  = launch_and_wait w exec port (log_add s2 [EvRun [exec; "authtoken"; t]]).
Proof.
  intros Ht Hres Hkill Hrun. split.
  - apply start_ngrok_after_setup. unfold start_setup. unfold_M.
    rewrite Hres, Hkill, (apply_authtoken_fail _ _ _ _ Ht Hrun). reflexivity.
  - rewrite <- (with_auth_ok_launch w exec t).
    apply start_ngrok_after_setup. unfold start_setup. unfold_M.
    rewrite with_auth_ok_resolve, Hres, with_auth_ok_kill, Hkill.
    rewrite (apply_authtoken_success _ _ _ _ Ht (with_auth_ok_run w exec t)).
    reflexivity.
Qed.

Lemma start_ngrok_authtoken_failure_nonfatal_witness :
  start_ngrok auth_fail_world 8000 (Some "tok") s_empty
  = launch_and_wait auth_fail_world ngrok_path 8000
      (log_add (snd (kill_previous auth_fail_world auth_s1))
         (auth_failure_events auth_fail_world ngrok_path "tok")) /\
  start_ngrok (with_auth_ok auth_fail_world ngrok_path "tok") 8000 (Some "tok") s_empty
  = launch_and_wait auth_fail_world ngrok_path 8000
      (log_add (snd (kill_previous auth_fail_world auth_s1))
         [EvRun [ngrok_path; "authtoken"; "tok"]]).
Proof.
  apply (start_ngrok_authtoken_failure_nonfatal auth_fail_world 8000 ngrok_path "tok"
           s_empty auth_s1 (snd (kill_previous auth_fail_world auth_s1))).
  - discriminate.
  - reflexivity.
  - reflexivity.
  - vm_compute. discriminate.
Defined.

(** C8 (code_bug): with TERRAFORM_ENDPOINT unset, both [create_env.py]
    scripts call [rsplit] on [None] one line before their check of the
    variable: the run ends in an uncaught [AttributeError] (exit status 1
    with a traceback) and the diagnostic the check would print is never
    printed. With DEVELOPER unset instead, the check after it prints its
    diagnostic and exits with 1; answering [n] at the confirmation exits
    with 0. *)
Theorem create_env_unset_endpoint_crashes :
  main (CreateEnv.run (env_world [("DEVELOPER", "ana")]) demo_backend) s_empty
  = (Ok 1%Z, log_add s_empty [EvTraceback rsplit_error]) /\
  main (CreateEnvCli.run (env_world [("DEVELOPER", "ana")]) demo_backend None None) s_empty
  = (Ok 1%Z, log_add s_empty [EvTraceback rsplit_error]) /\
  main (CreateEnv.run (env_world [("TERRAFORM_ENDPOINT", "https://tf.example.com/create")])
          demo_backend) s_empty
  = (Ok 1%Z, log_add s_empty [EvPrint "❌ DEVELOPER no definido"]) /\
  fst (main (CreateEnv.run (env_world [("DEVELOPER", "ana");
                                       ("TERRAFORM_ENDPOINT", "https://tf.example.com/create")])
                 demo_backend)
             (mkSt [] ["api"; "1"; "n"] [RespStatus 200 (Some one_mapping);
                                        RespStatus 200 (Some one_mapping)] ∅))
  = Ok 0%Z.
Proof. vm_compute. repeat split; reflexivity. Qed.

(** C9: whatever [str.isdigit] and [int] answer, a list returned by
    [choose_multiple_from_list] (and so by [choose_multiple_services_from_list],
    the same function) is non-empty, has no duplicates, and holds only
    elements of [options]. *)
Theorem choose_multiple_from_list_selection (isd : string -> bool) (to_int : string -> option Z)
    (options : list string) (title : string) (s s' : st) (sel : list string) :
  choose_multiple_from_list isd to_int options title s = (Ok sel, s') ->
  sel <> [] /\ NoDup sel /\ (forall x, In x sel -> In x options).
Proof.
  unfold choose_multiple_from_list. destruct options as [|o os]; intros H.
  - apply bind_ok in H. destruct H as [u [s1 [_ H]]]. discriminate H.
  - apply bind_ok in H. destruct H as [u [s1 [_ H]]].
    apply bind_ok in H. destruct H as [v [s2 [_ H]]].
    destruct (choose_loop_good isd to_int _ _ _ _ _ H) as [Hne [Hnd Hsub]].
    auto.
Qed.

Lemma choose_multiple_from_list_selection_witness :
  ["api"; "db"] <> [] /\ NoDup ["api"; "db"] /\
  (forall x, In x ["api"; "db"] -> In x choice_options).
Proof.
  apply (choose_multiple_from_list_selection py_isdigit py_int choice_options
           "Select local services" choice_state
           (snd (choose_multiple_from_list py_isdigit py_int choice_options
                   "Select local services" choice_state))).
  vm_compute. reflexivity.
Defined.

(** C10 (corrected): [is_ngrok_running] always returns a Boolean and
    consumes one answer of the status API. It is [true] exactly when the
    request got an HTTP answer whose code is outside 400-599, the codes
    [raise_for_status] raises for; so 1xx and 3xx answers count as running
    too. *)
Theorem is_ngrok_running_total (s : st) :
  exists b, is_ngrok_running s = (Ok b, after_get s) /\
    (b = true <-> exists c body rest,
       s_api s = RespStatus c body :: rest /\ ~ (400 <= c < 600)%Z).
Proof.
  exists (next_status_ok s). split; [apply is_ngrok_running_step|].
  unfold next_status_ok. destruct (s_api s) as [|[m|c body] rest].
  - split; [discriminate|]. intros [c [body [rest [H _]]]]. discriminate H.
  - split; [discriminate|]. intros [c [body [rest' [H _]]]]. discriminate H.
  - simpl. split.
    + intros H. exists c, body, rest. split; [reflexivity|].
      apply negb_true_iff, andb_false_iff in H.
      destruct H as [H|H]; [apply Z.leb_gt in H|apply Z.ltb_ge in H]; lia.
    + intros [c' [body' [rest' [H Hc]]]]. injection H as <- <- <-.
      apply negb_true_iff, andb_false_iff.
      destruct (Z.leb_spec 400 c); [right; apply Z.ltb_ge; lia|left; reflexivity].
Qed.

(** C10 counterexample: a [304 Not Modified] answer is not a success
    status, yet [is_ngrok_running] answers [true]. *)
Lemma is_ngrok_running_304_true :
  fst (is_ngrok_running (mkSt [] [] [RespStatus 304 None] ∅)) = Ok true.
Proof. reflexivity. Qed.

(** * Further properties of the code *)

(** ** download_ngrok *)

Lemma extract_entries_lookup (es : list (string * payload)) (d : gmap string file) (n : string) :
  extract_entries es d !! n
  = match last_entry n es with
    | Some p => Some (FPayload p false)
    | None => d !! n
    end.
Proof.
  revert d. induction es as [|[m p] rest IH]; intros d; [reflexivity|].
  unfold extract_entries in *. simpl. rewrite IH.
  destruct (last_entry n rest); [reflexivity|].
  destruct (String.eqb_spec m n) as [->|Hne].
  - apply lookup_insert_eq.
  - rewrite lookup_insert_ne; [reflexivity|congruence].
Qed.

Lemma get_download_url_state (w : world) (s : st) :
  get_download_url w s = (fst (get_download_url w s_empty), log_add s [detect_event w]).
Proof.
  unfold get_download_url, detect_event. unfold_M.
  repeat match goal with |- context [if ?b then _ else _] => destruct b end;
    reflexivity.
Qed.

Lemma bind_step {A B} (m : M A) (k : A -> M B) (s s' : st) (a : A) :
  m s = (Ok a, s') -> (m ≫= k) s = k a s'.
Proof. intros H. unfold_M. rewrite H. reflexivity. Qed.

Lemma bind_raise {A B} (m : M A) (k : A -> M B) (s s' : st) (e : exn) :
  m s = (Raise e, s') -> (m ≫= k) s = (Raise e, s').
Proof. intros H. unfold_M. rewrite H. reflexivity. Qed.

(** [download_ngrok] up to [extractall], for a zip archive. *)
Lemma download_ngrok_zip_prefix (w : world) (s : st) (url : string)
    (es : list (string * payload)) :
  fst (get_download_url w s_empty) = Ok url ->
  w_fetch w url = Some (Zip es) ->
  download_ngrok w s
  = (os_remove w "ngrok.zip" ;;
     (let ngrok_exec := get_local_ngrok_path w in
      (if negb (is_windows w) then chmod_exec w (local_name w) else mret tt) ;;
      print ("✅ Ngrok downloaded and ready at: " ++ ngrok_exec) ;;
      mret ngrok_exec))
      (mkSt (s_log s ++ [EvPrint "⏬ Downloading ngrok automatically..."; detect_event w;
                         EvRetrieve url])
            (s_inputs s) (s_api s)
            (extract_entries es (<["ngrok.zip" := FArchive (Zip es)]> (s_dir s)))).
Proof.
  intros Hu Hf. unfold download_ngrok.
  erewrite bind_step; [|reflexivity].
  erewrite bind_step; [|rewrite get_download_url_state, Hu; reflexivity].
  erewrite bind_step.
  2:{ unfold urlretrieve. erewrite bind_step; [|reflexivity]. rewrite Hf.
      reflexivity. }
  erewrite bind_step.
  2:{ unfold zip_open. erewrite bind_step; [|reflexivity]. simpl.
      rewrite lookup_insert_eq. reflexivity. }
  erewrite bind_step; [|reflexivity].
  unfold log_add; simpl. repeat rewrite <- app_assoc. reflexivity.
Qed.

Lemma delete_extract_insert (es : list (string * payload)) (d : gmap string file)
    (z : string) (a : file) :
  last_entry z es = None ->
  delete z (extract_entries es (<[z := a]> d)) = delete z (extract_entries es d).
Proof.
  intros Hz. apply map_eq. intros n.
  destruct (String.eq_dec n z) as [->|Hne].
  - rewrite !lookup_delete_eq. reflexivity.
  - rewrite !lookup_delete_ne by congruence. rewrite !extract_entries_lookup.
    destruct (last_entry n es); [reflexivity|].
    apply lookup_insert_ne. congruence.
Qed.

Lemma download_ngrok_zip_run (w : world) (s : st) (url : string)
    (es : list (string * payload)) (p : payload) :
  is_windows w = false ->
  fst (get_download_url w s_empty) = Ok url ->
  w_fetch w url = Some (Zip es) ->
  last_entry "ngrok" es = Some p ->
  last_entry "ngrok.zip" es = None ->
  download_ngrok w s
  = (Ok (get_local_ngrok_path w),
     mkSt (s_log s ++ installed_log w url) (s_inputs s) (s_api s)
          (installed_dir es p (s_dir s))).
Proof.
  intros Hw Hu Hf Hp Hz. rewrite (download_ngrok_zip_prefix w s url es Hu Hf).
  erewrite bind_step.
  2:{ unfold os_remove. erewrite bind_step; [|reflexivity]. simpl.
      rewrite extract_entries_lookup, Hz, lookup_insert_eq. reflexivity. }
  simpl. rewrite Hw. unfold local_name. rewrite Hw. simpl.
  erewrite bind_step.
  2:{ unfold chmod_exec. erewrite bind_step; [|reflexivity]. simpl.
      rewrite lookup_delete_ne by discriminate.
      rewrite extract_entries_lookup, Hp. reflexivity. }
  erewrite bind_step; [|reflexivity].
  unfold mret, M_ret, installed_dir, installed_log; simpl.
  rewrite delete_extract_insert by exact Hz.
  repeat rewrite <- app_assoc. reflexivity.
Qed.

Lemma installed_dir_idem (es : list (string * payload)) (p : payload) (d : gmap string file) :
  last_entry "ngrok" es = Some p ->
  installed_dir es p (installed_dir es p d) = installed_dir es p d.
Proof.
  intros Hp. unfold installed_dir. apply map_eq. intros n.
  destruct (String.eq_dec n "ngrok") as [->|Hn].
  - rewrite !lookup_insert_eq. reflexivity.
  - rewrite !lookup_insert_ne by congruence.
    destruct (String.eq_dec n "ngrok.zip") as [->|Hz].
    + rewrite !lookup_delete_eq. reflexivity.
    + rewrite !lookup_delete_ne by congruence. rewrite !extract_entries_lookup.
      destruct (last_entry n es) eqn:He; [reflexivity|].
      rewrite lookup_insert_ne by congruence.
      rewrite lookup_delete_ne by congruence.
      rewrite extract_entries_lookup, He. reflexivity.
Qed.

(** X1: on a non-Windows machine whose download is a zip archive holding a
    binary [ngrok] (and no entry named [ngrok.zip]), [download_ngrok]
    returns the local binary path and leaves the install directory with
    the archive's entries extracted over the files already there, the
    downloaded [ngrok.zip] removed and [ngrok] marked executable. *)
Theorem download_ngrok_zip_installs (w : world) (s : st) (url : string)
    (es : list (string * payload)) (p : payload) :
  is_windows w = false ->
  fst (get_download_url w s_empty) = Ok url ->
  w_fetch w url = Some (Zip es) ->
  last_entry "ngrok" es = Some p ->
  last_entry "ngrok.zip" es = None ->
  fst (download_ngrok w s) = Ok (get_local_ngrok_path w) /\
  s_dir (snd (download_ngrok w s)) = installed_dir es p (s_dir s) /\
  s_dir (snd (download_ngrok w s)) !! "ngrok" = Some (FPayload p true) /\
  s_dir (snd (download_ngrok w s)) !! "ngrok.zip" = None.
Proof.
  intros Hw Hu Hf Hp Hz. rewrite (download_ngrok_zip_run w s url es p Hw Hu Hf Hp Hz).
  simpl. unfold installed_dir. split; [reflexivity|]. split; [reflexivity|].
  split; [apply lookup_insert_eq|].
  rewrite lookup_insert_ne by discriminate. apply lookup_delete_eq.
Qed.

Lemma download_ngrok_zip_installs_witness :
  let w := fetch_world "aarch64" ngrok_zip in
  fst (download_ngrok w s_empty) = Ok (get_local_ngrok_path w) /\
  s_dir (snd (download_ngrok w s_empty)) = installed_dir [("ngrok", PBinary)] PBinary ∅ /\
  s_dir (snd (download_ngrok w s_empty)) !! "ngrok" = Some (FPayload PBinary true) /\
  s_dir (snd (download_ngrok w s_empty)) !! "ngrok.zip" = None.
Proof.
  intros w.
  apply (download_ngrok_zip_installs w s_empty
           "https://bin.ngrok.com/ngrok-v3-stable-linux-arm64.zip" [("ngrok", PBinary)] PBinary);
    reflexivity.
Defined.

(** X2: with such a zip archive, a second run of [download_ngrok] succeeds
    again and leaves the install directory exactly as the first run left
    it. *)
Theorem download_ngrok_zip_idempotent (w : world) (s : st) (url : string)
    (es : list (string * payload)) (p : payload) :
  is_windows w = false ->
  fst (get_download_url w s_empty) = Ok url ->
  w_fetch w url = Some (Zip es) ->
  last_entry "ngrok" es = Some p ->
  last_entry "ngrok.zip" es = None ->
  let s1 := snd (download_ngrok w s) in
  fst (download_ngrok w s1) = Ok (get_local_ngrok_path w) /\
  s_dir (snd (download_ngrok w s1)) = s_dir s1.
Proof.
  intros Hw Hu Hf Hp Hz s1. unfold s1.
  rewrite (download_ngrok_zip_run w s url es p Hw Hu Hf Hp Hz). simpl.
  rewrite (download_ngrok_zip_run w _ url es p Hw Hu Hf Hp Hz). simpl.
  split; [reflexivity|]. apply installed_dir_idem. exact Hp.
Qed.

Lemma download_ngrok_zip_idempotent_witness :
  let w := fetch_world "aarch64" ngrok_zip in
  let s1 := snd (download_ngrok w (mkSt [] [] [] {[ "README.md" := FPayload PData false ]})) in
  fst (download_ngrok w s1) = Ok (get_local_ngrok_path w) /\
  s_dir (snd (download_ngrok w s1)) = s_dir s1.
Proof.
  intros w.
  apply (download_ngrok_zip_idempotent w _
           "https://bin.ngrok.com/ngrok-v3-stable-linux-arm64.zip" [("ngrok", PBinary)] PBinary);
    reflexivity.
Defined.



(** ** start_ngrok *)

Lemma wait_round_up (p : proc) (f i : nat) (s : st) :
  next_status_ok s = true ->
  wait_for_api p (S f) i s = (Ok p, advance s 1 (ready_events i)).
Proof.
  intros Hs. simpl. unfold_M.
  rewrite is_ngrok_running_step, Hs. simpl.
  unfold advance, after_get, ready_events; simpl.
  repeat rewrite <- app_assoc. destruct (s_api s); reflexivity.
Qed.

(** The status API first answers successfully at round [i + k], and the
    process was not seen dead before. *)
Lemma wait_for_api_up (p : proc) (k fuel i : nat) (s : st) (r : response) :
  (forall j, j < k -> exited_by p (i + j) = false) -> k < fuel ->
  api_down k (s_api s) = true -> nth_error (s_api s) k = Some r -> status_ok r = true ->
  wait_for_api p fuel i s
  = (Ok p, advance s (S k) (rounds_events i k ++ ready_events (i + k))).
Proof.
  revert i fuel s. induction k as [|k IH]; intros i fuel s He Hk Hd Hn Hr.
  - destruct fuel as [|f]; [lia|].
    rewrite wait_round_up.
    + rewrite Nat.add_0_r. reflexivity.
    + unfold next_status_ok. destruct (s_api s); [discriminate Hn|].
      simpl in Hn. injection Hn as ->. exact Hr.
  - destruct fuel as [|f]; [lia|].
    destruct (api_down_S _ _ Hd) as [Hs Hd'].
    rewrite wait_round_continue; [|exact Hs|].
    + rewrite (IH (S i) f _); [| |lia| | |exact Hr].
      * rewrite advance_advance. unfold rounds_events. simpl.
        rewrite Nat.add_succ_r.
        repeat rewrite <- app_assoc. reflexivity.
      * intros j Hj. replace (S i + j) with (i + S j) by lia. apply He. lia.
      * unfold advance; simpl. rewrite drop_1_tl. exact Hd'.
      * unfold advance; simpl. rewrite drop_1_tl.
        destruct (s_api s); [discriminate Hn|exact Hn].
    + replace i with (i + 0) by lia. apply He. lia.
Qed.

(** X4: if the status API first answers successfully at poll round [k]
    (k < 30) and the process was not seen exited in rounds before [k],
    [start_ngrok] returns the process after [k + 1] status requests and
    [k] one-second sleeps, printing the number of seconds waited. The
    process is not polled in round [k]. *)
Theorem start_ngrok_ready (w : world) (port : Z) (tok : option string) (s s1 : st)
    (exec : string) (p : proc) (k : nat) (r : response) :
  start_setup w tok s = (Ok exec, s1) ->
  w_popen w = Some p ->
  k < timeout ->
  (forall j, j < k -> exited_by p j = false) ->
  api_down k (s_api s1) = true ->
  nth_error (s_api s1) k = Some r -> status_ok r = true ->
  start_ngrok w port tok s
  = (Ok p, advance s1 (S k) (launch_events exec port ++ rounds_events 0 k ++ ready_events k)).
Proof.
  intros Hset Hp Hk He Hd Hn Hr.
  rewrite (start_ngrok_after_setup _ _ _ _ _ _ Hset), (launch_and_wait_popen _ _ _ _ _ Hp).
  rewrite (wait_for_api_up p k timeout 0 _ r); [| exact He | exact Hk | exact Hd | exact Hn | exact Hr].
  rewrite advance_advance. reflexivity.
Qed.

Lemma start_ngrok_ready_witness :
  let w := demo_world (crashing_proc 2) in
  let s1 := snd (start_setup w None ready_state) in
  start_ngrok w 8000 None ready_state
  = (Ok (crashing_proc 2),
     advance s1 3 (launch_events ngrok_path 8000 ++ rounds_events 0 2 ++ ready_events 2)).
Proof.
  intros w s1.
  apply (start_ngrok_ready w 8000 None ready_state s1 ngrok_path (crashing_proc 2) 2
           (RespStatus 200 None)).
  - reflexivity.
  - reflexivity.
  - unfold timeout; lia.
  - intros j Hj. destruct j as [|[|j]]; [reflexivity|reflexivity|lia].
  - reflexivity.
  - reflexivity.
  - reflexivity.
Defined.

(** What [kill_previous] logs, with the message the model gives the
    exception. *)
Lemma kill_previous_log (w : world) (s : st) :
  kill_previous w s
  = (Ok tt,
     log_add s (EvRun (kill_cmd w) ::
                match w_run w (kill_cmd w) with
                | Some _ => [EvPrint "Previous ngrok processes terminated."; EvSleep 2]
                | None => [EvPrint ("Warning while trying to terminate existing ngrok processes: "
                                    ++ exn_str (FileNotFoundError (default "" (head (kill_cmd w)))))]
                end)).
Proof.
  unfold kill_previous, kill_cmd, run_nocheck, log_add. unfold_M.
  destruct (is_windows w); simpl;
    destruct (w_run w _); simpl; repeat rewrite <- app_assoc; reflexivity.
Qed.

(** X5: killing earlier ngrok processes never stops [start_ngrok]: when
    [pkill] (or [taskkill] on Windows) runs, whatever its exit status, a
    confirmation is printed and the code sleeps 2 seconds; when it cannot
    be started, only a warning is printed and there is no sleep. *)
Theorem kill_previous_never_fails (w : world) (s : st) :
  exists evs,
    kill_previous w s = (Ok tt, log_add s (EvRun (kill_cmd w) :: evs)) /\
    (forall c, w_run w (kill_cmd w) = Some c ->
       evs = [EvPrint "Previous ngrok processes terminated."; EvSleep 2]) /\
    (w_run w (kill_cmd w) = None ->
       exists m, evs = [EvPrint ("Warning while trying to terminate existing ngrok processes: "
                                 ++ m)]).
Proof.
  rewrite kill_previous_log.
  destruct (w_run w (kill_cmd w)) as [c|] eqn:Hr.
  - eexists. split; [reflexivity|]. split; [reflexivity|discriminate].
  - eexists. split; [reflexivity|]. split; [discriminate|].
    intros _. eexists. reflexivity.
Qed.

Lemma kill_previous_never_fails_witness :
  exists evs, kill_previous (demo_world hanging_proc) s_empty
              = (Ok tt, log_add s_empty (EvRun ["pkill"; "ngrok"] :: evs)).
Proof.
  destruct (kill_previous_never_fails (demo_world hanging_proc) s_empty) as [evs [H _]].
  exists evs. exact H.
Defined.

(** ** get_ngrok_endpoint *)




(** X7: every failure of the endpoint read (lines 195-207), whether a
    network error, an HTTP error, a body that is not JSON, no tunnels, a
    bad NGROK_PORT or a malformed tunnel entry, reaches the caller as a
    [RuntimeError] whose message starts with "Error fetching ngrok
    endpoint: ": the [except Exception] around it never lets another
    exception through, since nothing in it calls [sys.exit]. *)
Theorem read_endpoint_only_runtime_error (w : world) (s s' : st) (e : exn) :
  read_endpoint w s = (Raise e, s') ->
  exists m, e = RuntimeError ("Error fetching ngrok endpoint: " ++ m).
Proof.
  unfold read_endpoint, try_except, try_catch.
  match goal with |- context [match ?m s with _ => _ end] =>
    destruct (m s) as [[a|e0] s0] eqn:Hm end.
  - discriminate.
  - destruct (is_Exception e0) eqn:Hex.
    + unfold raise. intros H. injection H as <- _. eauto.
    + intros _. destruct e0; try discriminate Hex. exfalso. clear Hex.
      unfold_M. unfold requests_get, raise_for_status, res_json, json_get, ngrok_port,
        json_index0, json_key, strip_scheme in Hm.
      simpl in Hm. repeat (case_match; unfold mret, M_ret, raise in *; simplify_eq/=).
Qed.

Lemma read_endpoint_only_runtime_error_witness :
  exists m, RuntimeError ("Error fetching ngrok endpoint: " ++ "Connection refused")
            = RuntimeError ("Error fetching ngrok endpoint: " ++ m).
Proof.
  apply (read_endpoint_only_runtime_error (demo_world hanging_proc)
           (api_state s_empty [RespError "Connection refused"])
           (snd (read_endpoint (demo_world hanging_proc)
                   (api_state s_empty [RespError "Connection refused"])))).
  vm_compute. reflexivity.
Defined.

(** X8: only the first entry of [tunnels] is read: two successful answers
    whose [tunnels] lists start with the same entry give the same result,
    whatever follows that entry. *)
Theorem read_endpoint_first_tunnel (w : world) (s : st) (c : Z)
    (kvs1 kvs2 : list (string * json)) (t : json) (rest1 rest2 : list json)
    (more : list response) :
  json_lookup "tunnels" kvs1 = Some (JList (t :: rest1)) ->
  json_lookup "tunnels" kvs2 = Some (JList (t :: rest2)) ->
  read_endpoint w (api_state s (RespStatus c (Some (JObj kvs1)) :: more))
  = read_endpoint w (api_state s (RespStatus c (Some (JObj kvs2)) :: more)).
Proof.
  intros H1 H2. unfold read_endpoint, requests_get, raise_for_status, res_json, json_get.
  unfold_M. simpl. destruct ((400 <=? c)%Z && (c <? 600)%Z); [reflexivity|].
  simpl. rewrite H1, H2. reflexivity.
Qed.

Lemma read_endpoint_first_tunnel_witness :
  read_endpoint (demo_world hanging_proc)
    (api_state s_empty [RespStatus 200 (Some one_mapping)])
  = read_endpoint (demo_world hanging_proc)
      (api_state s_empty [RespStatus 200 (Some (JObj [("tunnels", JList
         [JObj [("public_url", JStr "https://abcd.example.com")];
          JObj [("public_url", JStr "http://localhost:9000")]])]))]).
Proof.
  apply (read_endpoint_first_tunnel _ _ 200 _ _
           (JObj [("public_url", JStr "https://abcd.example.com")]) []
           [JObj [("public_url", JStr "http://localhost:9000")]]);
    reflexivity.
Defined.

(** ** The scripts *)

Lemma rsplit_slash_head_none (c : string) :
  ~ In "/"%char (list_ascii_of_string c) -> rsplit_slash_head c = None.
Proof.
  induction c as [|ch r IH]; intros H; [reflexivity|].
  simpl in *. rewrite IH by tauto.
  destruct (Ascii.eqb_spec ch "/"); [subst; tauto|reflexivity].
Qed.

Lemma rsplit_slash_head_last (a c : string) :
  ~ In "/"%char (list_ascii_of_string c) ->
  rsplit_slash_head (a ++ String "/" c) = Some a.
Proof.
  intros H. induction a as [|ch r IH]; simpl.
  - rewrite rsplit_slash_head_none by exact H. reflexivity.
  - rewrite IH. reflexivity.
Qed.

(** X9: the backend base URL the [create_env] scripts derive from
    TERRAFORM_ENDPOINT ([rsplit("/", 1)[0]]) is the endpoint with its last
    path segment removed, and the whole endpoint when it has no [/]. *)
Theorem terraform_base_of_rsplit (s : st) :
  (forall a c, ~ In "/"%char (list_ascii_of_string c) ->
     terraform_base_of (Some (a ++ "/" ++ c)) s = (Ok a, s)) /\
  (forall c, ~ In "/"%char (list_ascii_of_string c) ->
     terraform_base_of (Some c) s = (Ok c, s)).
Proof.
  split.
  - intros a c H. unfold terraform_base_of.
    change ("/" ++ c)%string with (String "/" c).
    rewrite rsplit_slash_head_last by exact H. reflexivity.
  - intros c H. unfold terraform_base_of.
    rewrite rsplit_slash_head_none by exact H. reflexivity.
Qed.

Lemma terraform_base_of_rsplit_witness :
  terraform_base_of (Some ("https://tf.example.com" ++ "/" ++ "create")) s_empty
  = (Ok "https://tf.example.com", s_empty) /\
  terraform_base_of (Some "localhost") s_empty = (Ok "localhost", s_empty).
Proof.
  split.
  - apply (proj1 (terraform_base_of_rsplit s_empty)). simpl. intuition discriminate.
  - apply (proj2 (terraform_base_of_rsplit s_empty)). simpl. intuition discriminate.
Defined.

Lemma choose_one_loop_in (isd : string -> bool) (to_int : string -> option Z)
    (options : list string) (fuel : nat) (s s' : st) (x : string) :
  choose_one_loop isd to_int options fuel s = (Ok x, s') -> In x options.
Proof.
  revert s. induction fuel as [|f IH]; intros s H; simpl in H; [discriminate H|].
  apply bind_ok in H. destruct H as [raw [s1 [_ H]]].
  destruct (isd (strip raw)).
  - destruct (to_int (strip raw)) as [i|]; [|discriminate H].
    destruct ((1 <=? i)%Z && (i <=? Z.of_nat (length options))%Z) eqn:Hr.
    + unfold_M. injection H as <- _.
      apply andb_prop in Hr. destruct Hr as [H1 H2].
      apply Z.leb_le in H1. apply Z.leb_le in H2.
      apply nth_In. lia.
    + apply bind_ok in H. destruct H as [u [s2 [_ H]]]. exact (IH _ H).
  - destruct (in_list (strip raw) options) eqn:Hin.
    + unfold_M. injection H as <- _. apply in_list_spec. exact Hin.
    + apply bind_ok in H. destruct H as [u [s2 [_ H]]]. exact (IH _ H).
Qed.

(** X10: whatever [str.isdigit] and [int] answer, the option
    [choose_from_list] returns is one of [options], chosen by number or
    by name. *)
Theorem choose_from_list_in (isd : string -> bool) (to_int : string -> option Z)
    (options : list string) (title : string) (s s' : st) (x : string) :
  choose_from_list isd to_int options title s = (Ok x, s') -> In x options.
Proof.
  unfold choose_from_list. destruct options as [|o os]; intros H.
  - apply bind_ok in H. destruct H as [u [s1 [_ H]]]. discriminate H.
  - apply bind_ok in H. destruct H as [u [s1 [_ H]]].
    apply bind_ok in H. destruct H as [v [s2 [_ H]]].
    exact (choose_one_loop_in _ _ _ _ _ _ _ H).
Qed.

Lemma choose_from_list_in_witness : In "db" choice_options.
Proof.
  apply (choose_from_list_in py_isdigit py_int choice_options "Select a branch"
           (mkSt [] ["7"; "prod"; " 3 "] [] ∅)
           (snd (choose_from_list py_isdigit py_int choice_options "Select a branch"
                   (mkSt [] ["7"; "prod"; " 3 "] [] ∅)))).
  vm_compute. reflexivity.
Defined.










Lemma fetch_list_run (b : backend) (what url : string) (s : st) :
  fetch_list b what url s = (Ok (fetched b url), log_add s (fetch_log b what url)).
Proof.
  unfold fetch_list, fetched, fetch_log. erewrite bind_step; [|apply emit_ok].
  destruct (b_list b url) as [err|l].
  - erewrite bind_step; [|apply emit_ok]. unfold log_add. simpl.
    rewrite <- app_assoc. reflexivity.
  - reflexivity.
Qed.

Lemma truthy_some (x : string) : x <> "" -> str_truthy (Some x) = true.
Proof.
  intros H. unfold str_truthy, truthy. apply negb_true_iff, String.eqb_neq. exact H.
Qed.

Lemma log_add_log_add (s : st) (l1 l2 : list event) :
  log_add (log_add s l1) l2 = log_add s (l1 ++ l2)%list.
Proof. unfold log_add. simpl. rewrite app_assoc. reflexivity. Qed.

(** X13: in src/infra/scripts/create_env.py, when the backend gives no
    services (the request failed or the list is empty), [run] prints the
    fetch error if any, prints "No services defined" and exits with status
    1: nothing is read from stdin and ngrok is never started. *)
Theorem create_env_no_services_exits (w : world) (b : backend) (s : st) (te dev : string) :
  w_getenv w "TERRAFORM_ENDPOINT" = Some te -> te <> "" ->
  w_getenv w "DEVELOPER" = Some dev -> dev <> "" ->
  fetched b (env_base te ++ "/services") = [] ->
  main (CreateEnv.run w b) s
  = (Ok 1%Z, log_add s (fetch_log b "services" (env_base te ++ "/services")
                        ++ [EvPrint "⚠️ No services defined."])%list).
Proof.
  intros Hte Hte' Hdev Hdev' Hnone.
  unfold main, CreateEnv.run. rewrite Hte, Hdev.
  erewrite bind_step; [|unfold terraform_base_of; reflexivity]. cbv beta.
  erewrite bind_step; [|rewrite (truthy_some _ Hte'); reflexivity].
  erewrite bind_step; [|rewrite (truthy_some _ Hdev'); reflexivity].
  erewrite bind_step; [|unfold get_available_services; apply fetch_list_run].
  fold (env_base te). rewrite Hnone.
  erewrite bind_raise; [|unfold choose_multiple_from_list; reflexivity].
  unfold log_add. simpl. rewrite <- app_assoc. reflexivity.
Qed.

Lemma create_env_no_services_exits_witness :
  main (CreateEnv.run (env_world dev_env) down_backend) s_empty
  = (Ok 1%Z, log_add s_empty
       (fetch_log down_backend "services" (env_base "https://tf.example.com/create" ++ "/services")
        ++ [EvPrint "⚠️ No services defined."])%list).
Proof.
  apply create_env_no_services_exits with (dev := "ana").
  - reflexivity.
  - discriminate.
  - reflexivity.
  - discriminate.
  - reflexivity.
Defined.





(** ** create_backend *)

Ltac peel H := apply bind_ok in H; destruct H as [? [? [_ H]]].


Lemma filter_invalid_nil_inv (l avail : list string) :
  List.filter (fun x => negb (in_list x avail)) l = [] ->
  forall x, In x l -> In x avail.
Proof.
  induction l as [|y l IH]; intros H x Hx; [destruct Hx|].
  simpl in H. destruct (in_list y avail) eqn:Hy; simpl in H; [|discriminate H].
  destruct Hx as [<-|Hx]; [apply in_list_spec; exact Hy|exact (IH H x Hx)].
Qed.

Lemma send_payload_ok (b : backend) (p ep : string) (s s1 : st) (u : unit) :
  send_payload b p ep s = (Ok u, s1) ->
  b_post_ok b ep = true /\ In (EvPost ep) (s_log s1).
Proof.
  unfold send_payload. intros H. rewrite (bind_step _ _ _ _ _ (emit_ok _ _)) in H.
  destruct (b_post_ok b ep).
  - split; [reflexivity|]. unfold_M. injection H as _ <-. simpl.
    apply in_or_app. left. apply in_or_app. right. left. reflexivity.
  - peel H. discriminate H.
Qed.

(** X15: [create_backend.run] stops at once with status 1, printing only the
    missing-variables message, when TERRAFORM_ENDPOINT_BASE,
    TERRAFORM_CREATE_EPHIMERAL_ENDPOINT or
    TERRAFORM_CREATE_NO_EPHIMERAL_ENDPOINT is unset or empty, whatever the
    arguments: no request is made and nothing is read. *)
Theorem create_backend_missing_env (w : world) (b : backend)
    (cli_environment cli_services : option string) (cli_is_ephemeral : option bool) (s : st) :
  str_truthy (w_getenv w "TERRAFORM_ENDPOINT_BASE")
  && str_truthy (w_getenv w "TERRAFORM_CREATE_EPHIMERAL_ENDPOINT")
  && str_truthy (w_getenv w "TERRAFORM_CREATE_NO_EPHIMERAL_ENDPOINT") = false ->
  main (CreateBackend.run w b cli_environment cli_services cli_is_ephemeral) s
  = (Ok 1%Z, log_add s [EvPrint "❌ Missing required environment variables: TERRAFORM_ENDPOINT_BASE, TERRAFORM_CREATE_EPHIMERAL_ENDPOINT, or TERRAFORM_CREATE_NO_EPHIMERAL_ENDPOINT."]).
Proof.
  intros H. unfold main, CreateBackend.run. cbv zeta.
  destruct (str_truthy (w_getenv w "TERRAFORM_ENDPOINT_BASE")),
           (str_truthy (w_getenv w "TERRAFORM_CREATE_EPHIMERAL_ENDPOINT")),
           (str_truthy (w_getenv w "TERRAFORM_CREATE_NO_EPHIMERAL_ENDPOINT"));
    simpl in H; try discriminate H; reflexivity.
Qed.

Lemma create_backend_missing_env_witness :
  main (CreateBackend.run (env_world [("TERRAFORM_ENDPOINT_BASE", "https://tf.example.com")])
          stable_backend (Some "prod") (Some "api") (Some false)) s_empty
  = (Ok 1%Z, log_add s_empty [EvPrint "❌ Missing required environment variables: TERRAFORM_ENDPOINT_BASE, TERRAFORM_CREATE_EPHIMERAL_ENDPOINT, or TERRAFORM_CREATE_NO_EPHIMERAL_ENDPOINT."]).
Proof. apply create_backend_missing_env. reflexivity. Defined.

(** X16: when [create_backend.run] is given an environment, services and the
    ephemeral flag and returns normally, every requested service is one the
    backend lists, a non-ephemeral environment is one of the listed stable
    environments, and the payload was posted, successfully, to the
    ephemeral endpoint if the flag is set and to the stable one otherwise. *)
Theorem create_backend_auto_posts (w : world) (b : backend) (s s' : st)
    (base eph_ep stable_ep env svcs : string) (e : bool) :
  w_getenv w "TERRAFORM_ENDPOINT_BASE" = Some base ->
  w_getenv w "TERRAFORM_CREATE_EPHIMERAL_ENDPOINT" = Some eph_ep ->
  w_getenv w "TERRAFORM_CREATE_NO_EPHIMERAL_ENDPOINT" = Some stable_ep ->
  CreateBackend.run w b (Some env) (Some svcs) (Some e) s = (Ok tt, s') ->
  (forall x, In x (split_parts svcs) -> In x (fetched b (base ++ "/services"))) /\
  (e = false -> In env (fetched b (base ++ "/available-stable-environments"))) /\
  b_post_ok b (if e then eph_ep else stable_ep) = true /\
  In (EvPost (if e then eph_ep else stable_ep)) (s_log s').
Proof.
  intros Hb He Hn H. unfold CreateBackend.run in H. rewrite Hb, He, Hn in H.
  cbv zeta in H.
  destruct (negb (str_truthy (Some base)) || negb (str_truthy (Some eph_ep))
            || negb (str_truthy (Some stable_ep))).
  { peel H. discriminate H. }
  change (default "" (Some base)) with base in H.
  change (default "" (Some eph_ep)) with eph_ep in H.
  change (default "" (Some stable_ep)) with stable_ep in H.
  peel H.
  apply bind_ok in H. destruct H as [av [s2 [H2 H]]].
  unfold CreateBackend.get_available_services in H2. rewrite fetch_list_run in H2.
  injection H2 as <- <-.
  peel H.
  apply bind_ok in H. destruct H as [st_envs [s4 [H4 H]]].
  unfold CreateBackend.get_available_stable_environments in H4.
  rewrite fetch_list_run in H4. injection H4 as <- <-.
  apply bind_ok in H. destruct H as [[[env' e'] svcs'] [s5 [H5 H]]].
  unfold mret, M_ret in H5. injection H5 as <- <- <- <-. cbv beta iota in H.
  apply bind_ok in H. destruct H as [u6 [s6 [H6 H]]].
  destruct (List.filter (fun x => negb (in_list x (fetched b (base ++ "/services"))))
              (split_parts svcs)) eqn:Hf.
  2:{ apply bind_ok in H6. destruct H6 as [? [? [_ H6]]]. discriminate H6. }
  apply bind_ok in H. destruct H as [u7 [s7 [H7 H]]].
  assert (e = false -> In env (fetched b (base ++ "/available-stable-environments"))) as Hst.
  { intros ->. simpl in H7.
    destruct (in_list env (fetched b (base ++ "/available-stable-environments"))) eqn:Hin.
    - apply in_list_spec. exact Hin.
    - simpl in H7. apply bind_ok in H7. destruct H7 as [? [? [_ H7]]]. discriminate H7. }
  do 7 peel H.
  apply bind_ok in H. destruct H as [u9 [s9 [H9 H]]].
  apply send_payload_ok in H9. destruct H9 as [Hok Hin].
  split; [exact (filter_invalid_nil_inv _ _ Hf)|].
  split; [exact Hst|]. split; [destruct e; exact Hok|].
  unfold_M. injection H as <-. simpl.
  apply in_or_app. left. apply in_or_app. left. destruct e; exact Hin.
Qed.

Lemma create_backend_auto_posts_witness :
  In (EvPost "https://tf.example.com/stable")
     (s_log (snd (CreateBackend.run (env_world backend_env) stable_backend (Some "prod")
                    (Some "api, web") (Some false) (mkSt [] ["y"] [] ∅)))).
Proof.
  assert (w_getenv (env_world backend_env) "TERRAFORM_ENDPOINT_BASE"
          = Some "https://tf.example.com") as H1 by (vm_compute; reflexivity).
  assert (w_getenv (env_world backend_env) "TERRAFORM_CREATE_EPHIMERAL_ENDPOINT"
          = Some "https://tf.example.com/ephemeral") as H2 by (vm_compute; reflexivity).
  assert (w_getenv (env_world backend_env) "TERRAFORM_CREATE_NO_EPHIMERAL_ENDPOINT"
          = Some "https://tf.example.com/stable") as H3 by (vm_compute; reflexivity).
  assert (CreateBackend.run (env_world backend_env) stable_backend (Some "prod")
            (Some "api, web") (Some false) (mkSt [] ["y"] [] ∅)
          = (Ok tt, snd (CreateBackend.run (env_world backend_env) stable_backend
                           (Some "prod") (Some "api, web") (Some false)
                           (mkSt [] ["y"] [] ∅)))) as Hr.
  { vm_compute. reflexivity. }
  exact (proj2 (proj2 (proj2 (create_backend_auto_posts (env_world backend_env)
            stable_backend (mkSt [] ["y"] [] ∅) _ "https://tf.example.com"
            "https://tf.example.com/ephemeral" "https://tf.example.com/stable"
            "prod" "api, web" false H1 H2 H3 Hr)))).
Defined.





